(** * Terminology search: local catalog, remote ICD-11 resolver, aggregator

    A shallow embedding of

      - [app/api/services/namaste.py]  ([NAMASTEService.search_namaste]),
      - [app/api/services/icd11.py]    ([ICD11Service.get_token],
                                        [ICD11Service.search_icd11]),
      - [app/api/endpoints/search.py]  ([search_terms]),

    followed by the properties of the specification.

    Conventions.  Python values that come out of [json.load] or
    [response.json()] are terms of [json].  A Python [str] is a [string]
    holding its UTF-8 bytes ([x in y] on text is the same as containment of
    the encodings).  A coroutine that may raise is a value of [result A];
    code that mutates [self] or talks to the network threads a [State].
    Log emission has no effect on any value and is left out. *)

From Stdlib Require Import List String Ascii ZArith Bool Lia.
From Stdlib Require Import Numbers.DecimalString.
Import ListNotations.

Local Open Scope string_scope.
Local Open Scope list_scope.
Local Set Warnings "-register-all".

(* ================================================================= *)
(** ** Python values *)

(** Decoded JSON documents.  Numbers are kept as integers; objects keep the
    insertion order of their keys (a Python [dict]). *)
Inductive json : Type :=
| JNull
| JBool (b : bool)
| JInt (z : Z)
| JString (s : string)
| JArray (items : list json)
| JObject (fields : list (string * json)).

(** [bool(v)]: the truth value Python gives to [v] in [if v], [not v] and
    [a or b]. *)
Definition truthy (v : json) : bool :=
  match v with
  | JNull => false
  | JBool b => b
  | JInt z => negb (Z.eqb z 0)
  | JString s => negb (String.eqb s "")
  | JArray items => match items with [] => false | _ :: _ => true end
  | JObject fields => match fields with [] => false | _ :: _ => true end
  end.

(** [a or b] *)
Definition py_or (a b : json) : json := if truthy a then a else b.

(** Lookup in a [dict]. *)
Fixpoint lookup (fields : list (string * json)) (key : string) : option json :=
  match fields with
  | [] => None
  | (k, v) :: rest => if String.eqb k key then Some v else lookup rest key
  end.

(** [d.get(key, default)] for a [dict] [d]. *)
Definition dict_get (fields : list (string * json)) (key : string) (default : json) : json :=
  match lookup fields key with
  | Some v => v
  | None => default
  end.

(* ================================================================= *)
(** ** Exceptions *)

(** The exceptions the three modules raise or meet; all of them are
    subclasses of [Exception]. *)
Inductive exn : Type :=
| HTTPException (status_code : Z) (detail : string)
| FileNotFoundError (msg : string)
| OSError (msg : string)            (* PermissionError, IsADirectoryError, ... *)
| ValueError (msg : string)         (* json.JSONDecodeError, UnicodeDecodeError *)
| AttributeError (msg : string)
| TypeError (msg : string)
| RequestError (msg : string)       (* httpx.RequestError: timeouts, connection, DNS *)
| RuntimeError (msg : string).

(** Outcome of a call: raised or returned. *)
Inductive result (A : Type) : Type :=
| Raise (e : exn)
| Return (a : A).
Arguments Raise {A} e.
Arguments Return {A} a.

Definition bind {A B : Type} (m : result A) (k : A -> result B) : result B :=
  match m with
  | Raise e => Raise e
  | Return a => k a
  end.

Notation "x <- m ;; k" := (bind m (fun x => k))
  (at level 61, m at next level, right associativity).

Definition Z_to_string (z : Z) : string := NilEmpty.string_of_int (Z.to_int z).

(** [str(e)] *)
Definition exn_str (e : exn) : string :=
  match e with
  | HTTPException status_code detail => Z_to_string status_code ++ ": " ++ detail
  | FileNotFoundError msg | OSError msg | ValueError msg | AttributeError msg
  | TypeError msg | RequestError msg | RuntimeError msg => msg
  end.

(** [v.get(key, default)] on an arbitrary value: only a [dict] has [get]. *)
Definition py_get (v : json) (key : string) (default : json) : result json :=
  match v with
  | JObject fields => Return (dict_get fields key default)
  | _ => Raise (AttributeError "object has no attribute 'get'")
  end.

(** [for item in v]: the items the loop visits, or the [TypeError] of a
    value that cannot be iterated.  A [dict] yields its keys, a [str] its
    characters. *)
Definition py_iter (v : json) : result (list json) :=
  match v with
  | JArray items => Return items
  | JObject fields => Return (map (fun kv => JString (fst kv)) fields)
  | JString s => Return (map (fun c => JString (String c "")) (list_ascii_of_string s))
  | JNull | JBool _ | JInt _ => Raise (TypeError "object is not iterable")
  end.

(* ================================================================= *)
(** ** Text *)

(** [q in t] for two [str]: [q] occurs in [t] as a contiguous block. *)
Fixpoint contains (t q : string) : bool :=
  String.prefix q t ||
  match t with
  | EmptyString => false
  | String _ t' => contains t' q
  end.

(** The builtins of the Python runtime that the code calls on text:
    [str.lower], [str.strip] and [str(v)].  They are taken as an interface,
    so that the results hold for the Unicode-aware functions of CPython. *)
Class PyBuiltins : Type := {
  str_lower : string -> string;
  str_strip : string -> string;
  py_str : json -> string;
  str_lower_empty : str_lower "" = ""
}.

(* ================================================================= *)
(** ** The local catalog: [app/api/services/namaste.py] *)

(** Modelled from the spec: the class [NAMASTETerm] of
    [app.api.models.common] is not among the sources.  It is taken as a
    plain record that stores the keyword arguments it is built from. *)
Record NAMASTETerm : Type := mkNAMASTETerm {
  nam_id : json;
  nam_term : string;
  nam_term_hindi : json;
  nam_category : json;
  nam_subcategory : json;
  nam_ayush_system : json;
  nam_description : json;
  nam_synonyms : json
}.

Record NAMASTEService : Type := { data_file : string }.

(** What [open(path, "r", encoding="utf-8")] followed by [json.load] gives
    for each path: the decoded document, or the exception raised. *)
Definition FileSystem : Type := string -> result json.

(** The mock record of the [FileNotFoundError] handler. *)
Definition fallback_term (query : string) : NAMASTETerm :=
  {| nam_id := JString "NAM001";
     nam_term := query;
     nam_term_hindi := JString "अनुवाद";
     nam_category := JString "Disease";
     nam_subcategory := JString "Fever";
     nam_ayush_system := JString "Ayurveda";
     nam_description := JString "Fallback mock: traditional terminology example.";
     nam_synonyms := JArray [JString "variant1"; JString "variant2"] |}.

Section Local.
Context `{PyBuiltins}.

(** [v.lower()]: only a [str] has the method. *)
Definition py_lower (v : json) : result string :=
  match v with
  | JString s => Return (str_lower s)
  | _ => Raise (AttributeError "object has no attribute 'lower'")
  end.

(** The record appended for a matching [item]. *)
Definition namaste_term_of (fields : list (string * json)) (term : string) (system : json) : NAMASTETerm :=
  {| nam_id := dict_get fields "id" (JString "");
     nam_term := term;
     nam_term_hindi := dict_get fields "term_hindi" JNull;
     nam_category := dict_get fields "category" (JString "");
     nam_subcategory := dict_get fields "subcategory" JNull;
     nam_ayush_system := system;
     nam_description := dict_get fields "description" JNull;
     nam_synonyms := dict_get fields "synonyms" (JArray []) |}.

(** [not ayush_system or system.lower() == ayush_system.lower()]; the
    right operand is evaluated only when a non-empty filter is set. *)
Definition system_passes (ayush_system : option string) (system : json) : result bool :=
  match ayush_system with
  | None => Return true
  | Some f =>
      if String.eqb f "" then Return true
      else (s <- py_lower system ;; Return (String.eqb s (str_lower f)))
  end.

(** The condition under which an entry is appended (lines 27-28): the
    filter is looked at only after the name has matched. *)
Definition matches (query : string) (ayush_system : option string)
    (name : string) (system : json) : result bool :=
  if contains (str_lower name) (str_lower query)
  then system_passes ayush_system system
  else Return false.

(** One turn of the loop over the catalog (lines 24-40): the new value of
    [results], or the exception raised on an entry of the wrong shape. *)
Definition scan_item (query : string) (ayush_system : option string)
    (item : json) (results : list NAMASTETerm) : result (list NAMASTETerm) :=
  match item with
  | JObject fields =>
      let term := dict_get fields "term" (JString "") in
      let system := dict_get fields "system" (JString "") in
      match term with
      | JString name =>
          keep <- matches query ayush_system name system ;;
          if keep : bool
          then Return (results ++ [namaste_term_of fields name system])
          else Return results
      | _ => Raise (AttributeError "object has no attribute 'lower'")
      end
  | _ => Raise (AttributeError "object has no attribute 'get'")
  end.

Fixpoint scan (query : string) (ayush_system : option string)
    (items : list json) (results : list NAMASTETerm) : result (list NAMASTETerm) :=
  match items with
  | [] => Return results
  | item :: rest =>
      results' <- scan_item query ayush_system item results ;;
      scan query ayush_system rest results'
  end.

(** The body of the [try] block (lines 19-47). *)
Definition search_namaste_try (fs : FileSystem) (self : NAMASTEService)
    (query : string) (ayush_system : option string) : result (list NAMASTETerm) :=
  data <- fs (data_file self) ;;
  entries <- py_get data "results" (JArray []) ;;
  items <- py_iter entries ;;
  results <- scan query ayush_system items [] ;;
  match results with
  | [] => Raise (HTTPException 404 ("No NAMASTE results for '" ++ query ++ "'")%string)
  | _ :: _ => Return results
  end.

(** [NAMASTEService.search_namaste]: the [try] block under its two handlers,
    [except FileNotFoundError] first and [except Exception] second. *)
Definition search_namaste (fs : FileSystem) (self : NAMASTEService)
    (query : string) (ayush_system : option string) : result (list NAMASTETerm) :=
  match search_namaste_try fs self query ayush_system with
  | Return results => Return results
  | Raise (FileNotFoundError _) => Return [fallback_term query]
  | Raise _ => Raise (HTTPException 500 "NAMASTE search failed")
  end.

End Local.

(* ================================================================= *)
(** ** The remote resolver: [app/api/services/icd11.py] *)

(** Modelled from the spec: the class [ICD11Term] of
    [app.api.models.common] is not among the sources.  It is taken as a
    plain record that stores the keyword arguments it is built from. *)
Record ICD11Term : Type := mkICD11Term {
  icd_id : json;
  icd_uri : json;
  icd_code : json;
  icd_title : json;
  icd_definition : json;
  icd_parent : json;
  icd_children : json;
  icd_synonyms : list json
}.

(** An [httpx.Response]: [json_body] is what [response.json()] returns or
    raises. *)
Record Response : Type := {
  status_code : Z;
  text : string;
  json_body : result json
}.

(** The part of a search request that varies: the URL, the [q] and
    [useFlexisearch] parameters and the [Authorization] header. *)
Record Request : Type := {
  url : string;
  param_q : string;
  param_useFlexisearch : string;
  header_Authorization : string
}.

(** The remote side.  [post_token n] is what the token endpoint does on the
    [n]-th exchange of the process (it may answer differently each time);
    [get r] is what [client.get] does on request [r]. *)
Record Network : Type := {
  post_token : nat -> result Response;
  get : Request -> result Response
}.

(** The settings an [ICD11Service] is built from. *)
Record ICD11Service : Type := {
  base_url : string;
  client_id : option string;
  client_secret : option string
}.

(** What changes while the service runs: the attribute [_token_cache]
    ([JNull] for [None]), and the calls made to the network so far. *)
Record State : Type := {
  _token_cache : json;
  posts : nat;
  gets : list string
}.

Definition initial_state : State :=
  {| _token_cache := JNull; posts := 0; gets := [] |}.

(** [not c] for a setting that is [None] or a [str]. *)
Definition setting_missing (c : option string) : bool :=
  match c with
  | None => true
  | Some s => String.eqb s ""
  end.

(** The [try] block of [get_token] (lines 39-53), given the outcome of
    [client.post]. *)
Definition token_exchange (posted : result Response) : result json :=
  response <- posted ;;
  if negb (Z.eqb (status_code response) 200)
  then Raise (HTTPException 500 "ICD-11 token request failed")
  else
    token_data <- json_body response ;;
    token <- py_get token_data "access_token" JNull ;;
    if negb (truthy token)
    then Raise (HTTPException 500 "ICD-11 token missing in response")
    else Return token.

(** [ICD11Service.get_token].  The cache is written only on the path that
    returns the fetched token. *)
Definition get_token (net : Network) (self : ICD11Service) (st : State)
    : result json * State :=
  if truthy (_token_cache st) then (Return (_token_cache st), st)
  else if setting_missing (client_id self) || setting_missing (client_secret self)
  then (Raise (HTTPException 500 "ICD-11 credentials not configured"), st)
  else
    let n := posts st in
    match token_exchange (post_token net n) with
    | Return token =>
        (Return token,
         {| _token_cache := token; posts := S n; gets := gets st |})
    | Raise (RequestError _) =>
        (Raise (HTTPException 500 "Network error connecting to ICD-11"),
         {| _token_cache := _token_cache st; posts := S n; gets := gets st |})
    | Raise e =>
        (Raise e,
         {| _token_cache := _token_cache st; posts := S n; gets := gets st |})
    end.

(** The four URL variants, in the order they are tried. *)
Definition endpoints_to_try (self : ICD11Service) : list string :=
  [ (base_url self ++ "/mms/search")%string;
    (base_url self ++ "/search")%string;
    (base_url self ++ "/mms/flexisearch")%string;
    (base_url self ++ "/release/11/2024-01/mms/search")%string ].

(** The entity list of a decoded body (lines 102-107): an [or] chain over
    four lookups, each defaulting to the empty list. *)
Definition entities_of (data : json) : result json :=
  e1 <- py_get data "destinationEntities" (JArray []) ;;
  if truthy e1 then Return e1 else
  e2 <- py_get data "entities" (JArray []) ;;
  if truthy e2 then Return e2 else
  e3 <- py_get data "searchResults" (JArray []) ;;
  if truthy e3 then Return e3 else
  py_get data "results" (JArray []).

(** The title of a record (lines 110-115). *)
Definition title_of (fields : list (string * json)) : json :=
  match dict_get fields "title" JNull with
  | JObject t => dict_get t "@value" (JString "")
  | _ => py_or (dict_get fields "title" (JString "")) (dict_get fields "name" (JString ""))
  end.

(** The definition of a record (lines 117-122). *)
Definition definition_of (fields : list (string * json)) : json :=
  match dict_get fields "definition" JNull with
  | JObject d => dict_get d "@value" (JString "")
  | _ => dict_get fields "definition" (JString "")
  end.

Section Remote.
Context `{PyBuiltins}.

(** The loop over [synonym_data] (lines 128-132). *)
Fixpoint synonyms_loop (synonym_data : list json) (synonyms : list json)
    : result (list json) :=
  match synonym_data with
  | [] => Return synonyms
  | syn :: rest =>
      match syn with
      | JObject d =>
          label <- py_get (dict_get d "label" (JObject [])) "@value" (JString "") ;;
          synonyms_loop rest (synonyms ++ [label])
      | _ => synonyms_loop rest (synonyms ++ [JString (py_str syn)])
      end
  end.

(** The synonyms of a record (lines 125-132). *)
Definition synonyms_of (fields : list (string * json)) : result (list json) :=
  match py_or (dict_get fields "synonym" (JArray [])) (dict_get fields "synonyms" (JArray [])) with
  | JArray synonym_data => synonyms_loop synonym_data []
  | _ => Return []
  end.

(** The [ICD11Term] built at lines 135-144. *)
Definition icd11_term_of (fields : list (string * json)) (title definition : json)
    (synonyms : list json) : ICD11Term :=
  {| icd_id := py_or (dict_get fields "id" (JString "")) (dict_get fields "@id" (JString ""));
     icd_uri := py_or (py_or (dict_get fields "uri" (JString "")) (dict_get fields "id" (JString "")))
                      (dict_get fields "@id" (JString ""));
     icd_code := py_or (dict_get fields "theCode" (JString "")) (dict_get fields "code" (JString ""));
     icd_title := title;
     icd_definition := definition;
     icd_parent := dict_get fields "parent" (JString "");
     icd_children := dict_get fields "children" (JArray []);
     icd_synonyms := synonyms |}.

(** One turn of the loop over [entities] (lines 109-145): the record to
    append if there is one, or the exception raised. *)
Definition normalise_item (item : json) : result (option ICD11Term) :=
  match item with
  | JObject fields =>
      let title := title_of fields in
      let definition := definition_of fields in
      synonyms <- synonyms_of fields ;;
      if truthy title
      then Return (Some (icd11_term_of fields title definition synonyms))
      else Return None
  | _ => Raise (AttributeError "object has no attribute 'get'")
  end.

(** The loop over [entities]: [results] as the loop leaves it, and the
    exception that cut it short, if one did. *)
Fixpoint normalise (entities : list json) (results : list ICD11Term)
    : list ICD11Term * option exn :=
  match entities with
  | [] => (results, None)
  | item :: rest =>
      match normalise_item item with
      | Raise e => (results, Some e)
      | Return None => normalise rest results
      | Return (Some icd_term) => normalise rest (results ++ [icd_term])
      end
  end.

(** How one turn of the loop over the endpoints ends. *)
Inductive turn : Type :=
| Break (results : list ICD11Term)
| Continue (results : list ICD11Term).

(** The body of the loop over [endpoints_to_try] (lines 93-157), given what
    [client.get] did.  Both handlers ([httpx.RequestError], [Exception])
    go on with the next URL and leave [results] as it is at that point. *)
Definition try_endpoint (got : result Response) (results : list ICD11Term) : turn :=
  match got with
  | Raise _ => Continue results
  | Return response =>
      if Z.eqb (status_code response) 200 then
        match (data <- json_body response ;; entities <- entities_of data ;; py_iter entities) with
        | Raise _ => Continue results
        | Return entities =>
            match normalise entities results with
            | (results', None) => Break results'
            | (results', Some _) => Continue results'
            end
        end
      else Continue results
  end.

(** The loop over the endpoints; the URLs requested are recorded in order. *)
Fixpoint probe (net : Network) (mk : string -> Request) (urls : list string)
    (results : list ICD11Term) (requested : list string)
    : list ICD11Term * list string :=
  match urls with
  | [] => (results, requested)
  | u :: rest =>
      match try_endpoint (get net (mk u)) results with
      | Break results' => (results', requested ++ [u])
      | Continue results' => probe net mk rest results' (requested ++ [u])
      end
  end.

(** The request sent to [u] (lines 75-87). *)
Definition search_request (query : string) (use_flexisearch : bool) (token : json)
    (u : string) : Request :=
  {| url := u;
     param_q := str_strip query;
     param_useFlexisearch := if use_flexisearch then "true" else "false";
     header_Authorization := ("Bearer " ++ py_str token)%string |}.

(** [not query or query.strip() == ""] *)
Definition blank (query : string) : bool :=
  String.eqb query "" || String.eqb (str_strip query) "".

(** [ICD11Service.search_icd11].  A failure of [get_token] ends in the
    outer handler, which returns the empty list; nothing else in the [try]
    block raises past the handlers of the loop. *)
Definition search_icd11 (net : Network) (self : ICD11Service)
    (query : string) (use_flexisearch : bool) (st : State)
    : list ICD11Term * State :=
  if blank query then ([], st)
  else
    match get_token net self st with
    | (Raise _, st1) => ([], st1)
    | (Return token, st1) =>
        let '(results, requested) :=
          probe net (search_request query use_flexisearch token)
                (endpoints_to_try self) [] (gets st1) in
        (results,
         {| _token_cache := _token_cache st1; posts := posts st1; gets := requested |})
    end.

End Remote.

(* ================================================================= *)
(** ** The aggregator: [app/api/endpoints/search.py] *)

(** Modelled from the spec: the enumeration [SearchType] of
    [app.api.models.common] is not among the sources; its members and
    values are those of the inbound interface (namaste, icd11, both). *)
Inductive SearchType : Type := NAMASTE | ICD11 | BOTH.

Definition value (source : SearchType) : string :=
  match source with
  | NAMASTE => "namaste"
  | ICD11 => "icd11"
  | BOTH => "both"
  end.

(** Modelled from the spec: the class [MappingService] of
    [app.api.services.mapping] is not among the sources.  It is taken as
    holding the two resolvers; each field is what awaiting the resolver's
    search gives for the arguments, a list or an exception. *)
Record MappingService : Type := {
  namaste_service : string -> option string -> result (list NAMASTETerm);
  icd11_service : string -> result (list ICD11Term)
}.

(** The response envelope (the [dict] named [results]). *)
Record Envelope : Type := {
  query : string;
  source : string;
  namaste_results : list NAMASTETerm;
  icd11_results : list ICD11Term;
  total_results : nat;
  search_time_ms : Z;
  status : string;
  message : option string
}.

(** What the interpreter contributes to one request: the two readings of
    the clock, in milliseconds, and [merge_fault], an exception raised
    inside the outer [try] but outside the two per-source guards (while
    the totals and the time are computed, lines 64-71), or [None] when that
    part runs through.  The source has no [raise] of its own there. *)
Record Runtime : Type := {
  start_time : Z;
  end_time : Z;
  merge_fault : option exn
}.

(** Lines 36-51: the local search under its guard.  Both arms of the
    [HTTPException] handler and the [Exception] handler store the empty
    list. *)
Definition guarded_namaste (ms : MappingService) (q : string)
    (ayush_system : option string) : list NAMASTETerm :=
  match namaste_service ms q ayush_system with
  | Return namaste_results => namaste_results
  | Raise (HTTPException code _) => if Z.eqb code 404 then [] else []
  | Raise _ => []
  end.

(** Lines 54-62: the remote search under its guard. *)
Definition guarded_icd11 (ms : MappingService) (q : string) : list ICD11Term :=
  match icd11_service ms q with
  | Return icd11_results => icd11_results
  | Raise _ => []
  end.

(** The outer [try] block (lines 34-78). *)
Definition search_terms_try (ms : MappingService) (rt : Runtime)
    (q : string) (source : SearchType) (ayush_system : option string)
    : result Envelope :=
  let namaste_results :=
    match source with
    | NAMASTE | BOTH => guarded_namaste ms q ayush_system
    | ICD11 => []
    end in
  let icd11_results :=
    match source with
    | ICD11 | BOTH => guarded_icd11 ms q
    | NAMASTE => []
    end in
  _ <- match merge_fault rt with Some e => Raise e | None => Return tt end ;;
  let total_results := (List.length namaste_results + List.length icd11_results)%nat in
  let search_time_ms := (end_time rt - start_time rt)%Z in
  Return
    {| query := q;
       source := value source;
       namaste_results := namaste_results;
       icd11_results := icd11_results;
       total_results := total_results;
       search_time_ms := search_time_ms;
       status := if Nat.eqb total_results 0 then "no_results" else "success";
       message := if Nat.eqb total_results 0
                  then Some ("No results found for '" ++ q ++ "' in the selected sources")%string
                  else None |}.

(** [search_terms]: the outer [try] block under its last-resort handler
    (lines 80-92). *)
Definition search_terms (ms : MappingService) (rt : Runtime)
    (q : string) (source : SearchType) (ayush_system : option string) : Envelope :=
  match search_terms_try ms rt q source ayush_system with
  | Return results => results
  | Raise e =>
      {| query := q;
         source := value source;
         namaste_results := [];
         icd11_results := [];
         total_results := 0;
         search_time_ms := (end_time rt - start_time rt)%Z;
         status := "error";
         message := Some ("Search failed: " ++ exn_str e)%string |}
  end.

(** The services the process runs with: the local resolver over a file
    system, the remote resolver over a network and its state at the time
    of the request. *)
Definition mapping_service `{PyBuiltins} (fs : FileSystem) (local : NAMASTEService)
    (net : Network) (remote : ICD11Service) (st : State) : MappingService :=
  {| namaste_service := search_namaste fs local;
     icd11_service := fun q => Return (fst (search_icd11 net remote q true st)) |}.

(* ================================================================= *)
(** ** A runtime for ASCII text *)

Definition lower_ascii (c : ascii) : ascii :=
  let n := nat_of_ascii c in
  if (Nat.leb 65 n && Nat.leb n 90)%bool then ascii_of_nat (n + 32) else c.

Fixpoint ascii_lower (s : string) : string :=
  match s with
  | EmptyString => EmptyString
  | String c s' => String (lower_ascii c) (ascii_lower s')
  end.

Definition is_space (c : ascii) : bool :=
  let n := nat_of_ascii c in
  ((Nat.leb 9 n && Nat.leb n 13) || Nat.eqb n 32 || (Nat.leb 28 n && Nat.leb n 31))%bool.

Fixpoint lstrip (s : string) : string :=
  match s with
  | EmptyString => EmptyString
  | String c s' => if is_space c then lstrip s' else s
  end.

Fixpoint rstrip (s : string) : string :=
  match s with
  | EmptyString => EmptyString
  | String c s' =>
      match rstrip s' with
      | EmptyString => if is_space c then EmptyString else String c EmptyString
      | r => String c r
      end
  end.

Definition hex_digit (n : nat) : ascii :=
  if Nat.ltb n 10 then ascii_of_nat (48 + n) else ascii_of_nat (87 + n).

(** One character of [repr(s)] for the quote character in use. *)
Definition repr_char (quote c : ascii) : string :=
  let n := nat_of_ascii c in
  if Nat.eqb n 92 then "\\"
  else if Ascii.eqb c quote then String "\" (String c "")
  else if Nat.eqb n 9 then "\t"
  else if Nat.eqb n 10 then "\n"
  else if Nat.eqb n 13 then "\r"
  else if (Nat.ltb n 32 || Nat.eqb n 127)%bool
  then String "\" (String "x" (String (hex_digit (n / 16)) (String (hex_digit (n mod 16)) "")))
  else String c "".

Definition has_char (c : ascii) (s : string) : bool :=
  existsb (Ascii.eqb c) (list_ascii_of_string s).

(** [repr(s)] for a [str]: single quotes, unless the text has a single
    quote and no double quote. *)
Definition repr_str (s : string) : string :=
  let quote := if (has_char "'" s && negb (has_char "034" s))%bool then "034"%char else "'"%char in
  String quote (String.concat "" (map (repr_char quote) (list_ascii_of_string s)) ++ String quote "")%string.

(** [repr(v)] *)
Fixpoint py_repr (v : json) : string :=
  match v with
  | JNull => "None"
  | JBool true => "True"
  | JBool false => "False"
  | JInt z => Z_to_string z
  | JString s => repr_str s
  | JArray items => "[" ++ String.concat ", " (map py_repr items) ++ "]"
  | JObject fields =>
      "{" ++ String.concat ", "
               (map (fun kv => let '(k, x) := kv in (repr_str k ++ ": " ++ py_repr x)%string) fields)
          ++ "}"
  end.

(** [str(v)]: the text itself for a [str], [repr(v)] otherwise. *)
Definition ascii_str (v : json) : string :=
  match v with
  | JString s => s
  | _ => py_repr v
  end.

(** The builtins on ASCII text, where they coincide with CPython's. *)
#[export] Instance ascii_builtins : PyBuiltins := {
  str_lower := ascii_lower;
  str_strip := fun s => rstrip (lstrip s);
  py_str := ascii_str;
  str_lower_empty := eq_refl
}.

(* ================================================================= *)
(** ** The specification's notions *)

(** [q] occurs in [t] as a contiguous block. *)
Definition occurs_in (q t : string) : Prop :=
  exists pre post : string, t = (pre ++ q ++ post)%string.

Section Notions.
Context `{PyBuiltins}.

(** Equality of two texts up to case. *)
Definition same_ignoring_case (a b : string) : Prop := str_lower a = str_lower b.

(** The match rule as the specification words it: the name contains the
    query up to case and, when a filter is given, the system equals it up
    to case. *)
Definition claimed_match_rule (query : string) (ayush_system : option string)
    (name system : string) : Prop :=
  occurs_in (str_lower query) (str_lower name) /\
  (forall f, ayush_system = Some f -> same_ignoring_case system f).

(** The match rule with the empty filter counted as no filter. *)
Definition match_rule (query : string) (ayush_system : option string)
    (name system : string) : Prop :=
  occurs_in (str_lower query) (str_lower name) /\
  (forall f, ayush_system = Some f -> f <> "" -> same_ignoring_case system f).

(** A catalog entry of the documented shape: an object whose display name
    and system, when present, are text. *)
Definition entry_ok (item : json) : bool :=
  match item with
  | JObject fields =>
      match dict_get fields "term" (JString ""), dict_get fields "system" (JString "") with
      | JString _, JString _ => true
      | _, _ => false
      end
  | _ => false
  end.

Definition entry_name (item : json) : string :=
  match item with
  | JObject fields =>
      match dict_get fields "term" (JString "") with JString s => s | _ => "" end
  | _ => ""
  end.

Definition entry_system (item : json) : string :=
  match item with
  | JObject fields =>
      match dict_get fields "system" (JString "") with JString s => s | _ => "" end
  | _ => ""
  end.

(** The entry passes the category filter. *)
Definition in_category (ayush_system : option string) (item : json) : bool :=
  match ayush_system with
  | None => true
  | Some f => String.eqb f "" || String.eqb (str_lower (entry_system item)) (str_lower f)
  end.

(** The entry is selected by the query and the filter. *)
Definition selected (query : string) (ayush_system : option string) (item : json) : bool :=
  contains (str_lower (entry_name item)) (str_lower query) && in_category ayush_system item.

Definition entry_fields (item : json) : list (string * json) :=
  match item with
  | JObject fields => fields
  | _ => []
  end.

(** The record an entry is turned into. *)
Definition record_of (item : json) : NAMASTETerm :=
  namaste_term_of (entry_fields item) (entry_name item)
                  (dict_get (entry_fields item) "system" (JString "")).

(** The fallback rule as the specification words it, for a storage that
    is missing or unreadable. *)
Definition storage_unreachable (fs : FileSystem) (self : NAMASTEService) : Prop :=
  exists msg, fs (data_file self) = Raise (FileNotFoundError msg) \/
              fs (data_file self) = Raise (OSError msg).

Definition claimed_fallback (fs : FileSystem) (self : NAMASTEService)
    (query : string) (ayush_system : option string) : Prop :=
  storage_unreachable fs self ->
  exists r, search_namaste fs self query ayush_system = Return [r] /\ nam_term r = query.

End Notions.

(** The four keys under which an entity list may sit, by priority. *)
Definition entity_keys : list string :=
  ["destinationEntities"; "entities"; "searchResults"; "results"].

(** The entity list as the specification words it: the value of the first
    key that is present, even if that value is empty. *)
Fixpoint first_present (fields : list (string * json)) (keys : list string) : json :=
  match keys with
  | [] => JArray []
  | k :: rest =>
      match lookup fields k with
      | Some v => v
      | None => first_present fields rest
      end
  end.






(** The outer [try] block raised: a failure at the level of the
    orchestration. *)
Definition orchestration_failed (ms : MappingService) (rt : Runtime) (q : string)
    (source : SearchType) (ayush_system : option string) : Prop :=
  exists e, search_terms_try ms rt q source ayush_system = Raise e.

(** The operations of the service a process may run, in any order. *)
Inductive operation : Type :=
| GetToken
| SearchIcd11 (query : string) (use_flexisearch : bool).

(** Runs the operations one after the other; returns the tokens handed out
    by the [GetToken] calls and the final state. *)
Fixpoint run `{PyBuiltins} (net : Network) (self : ICD11Service)
    (ops : list operation) (st : State) : list (result json) * State :=
  match ops with
  | [] => ([], st)
  | GetToken :: rest =>
      let '(r, st1) := get_token net self st in
      let '(rs, st2) := run net self rest st1 in
      (r :: rs, st2)
  | SearchIcd11 query use_flexisearch :: rest =>
      let '(_, st1) := search_icd11 net self query use_flexisearch st in
      run net self rest st1
  end.

(** The record of a catalog entry, field by field: the entry's [id],
    [term], [term_hindi], [category], [subcategory], [system],
    [description] and [synonyms], an absent [id], [term], [category] or
    [system] read as the empty text, absent [synonyms] as the empty list
    and any other absent field as [None]. *)
Definition entry_record `{PyBuiltins} (item : json) : NAMASTETerm :=
  {| nam_id := dict_get (entry_fields item) "id" (JString "");
     nam_term := entry_name item;
     nam_term_hindi := dict_get (entry_fields item) "term_hindi" JNull;
     nam_category := dict_get (entry_fields item) "category" (JString "");
     nam_subcategory := dict_get (entry_fields item) "subcategory" JNull;
     nam_ayush_system := dict_get (entry_fields item) "system" (JString "");
     nam_description := dict_get (entry_fields item) "description" JNull;
     nam_synonyms := dict_get (entry_fields item) "synonyms" (JArray []) |}.

(** The empty-query rule for any catalog that loads, whatever the shape of
    its entries: the result is the catalog restricted to the filter. *)
Definition claimed_empty_query `{PyBuiltins} (fs : FileSystem) (self : NAMASTEService)
    (ayush_system : option string) (items : list json) : Prop :=
  fs (data_file self) = Return (JObject [("results", JArray items)]) ->
  filter (in_category ayush_system) items <> [] ->
  search_namaste fs self "" ayush_system
  = Return (map entry_record (filter (in_category ayush_system) items)).


(** What one entry of a synonym list is read as: for an object, the
    [@value] of its [label] (the empty text when the label or the value is
    absent), nothing when the label is not an object; for anything else,
    its [str]. *)
Definition synonym_reading `{PyBuiltins} (syn : json) : option json :=
  match syn with
  | JObject d =>
      match lookup d "label" with
      | None => Some (JString "")
      | Some (JObject label) =>
          Some (match lookup label "@value" with Some v => v | None => JString "" end)
      | Some _ => None
      end
  | _ => Some (JString (py_str syn))
  end.

(* ================================================================= *)
(** ** Fixtures *)

Module Fixture.

Definition fever_fields : list (string * json) :=
  [("id", JString "N1"); ("term", JString "Fever");
   ("category", JString "Disease"); ("system", JString "Ayurveda")].

Definition fever : json := JObject fever_fields.

Definition cough : json :=
  JObject [("id", JString "N2"); ("term", JString "Dry cough");
           ("category", JString "Disease"); ("system", JString "Yoga")].

Definition catalog : json := JObject [("results", JArray [fever; cough])].

Definition service : NAMASTEService := {| data_file := "data/namaste_data.json" |}.

(** A file system holding the catalog. *)
Definition fs_catalog : FileSystem := fun _ => Return catalog.

(** A file system where the file does not exist. *)
Definition fs_missing : FileSystem :=
  fun _ => Raise (FileNotFoundError "No such file or directory").

(** A file system where the file exists and may not be read. *)
Definition fs_denied : FileSystem := fun _ => Raise (OSError "Permission denied").

(** A file system where the file does not hold JSON. *)
Definition fs_corrupt : FileSystem := fun _ => Raise (ValueError "Expecting value").

Definition remote : ICD11Service :=
  {| base_url := "https://id.who.int/icd";
     client_id := Some "client";
     client_secret := Some "secret" |}.

Definition ok (body : json) : result Response :=
  Return {| status_code := 200; text := "{...}"; json_body := Return body |}.

Definition server_error : result Response :=
  Return {| status_code := 500; text := "Internal Server Error";
            json_body := Raise (ValueError "Expecting value") |}.


Definition refused : result Response := Raise (RequestError "connection refused").

(** A token endpoint that hands out a different token on every exchange. *)
Definition fresh_tokens (n : nat) : result Response :=
  ok (JObject [("access_token", JString ("token-" ++ Z_to_string (Z.of_nat n)))]).

(** A network given by the replies of the search URLs, by suffix. *)
Definition network (replies : list (string * result Response)) : Network :=
  {| post_token := fresh_tokens;
     get := fun r =>
       match find (fun kv => String.eqb (base_url remote ++ fst kv) (url r)) replies with
       | Some kv => snd kv
       | None => refused
       end |}.

Definition entity (id title : string) : json :=
  JObject [("id", JString id); ("title", JString title)].

(** The record [entity "1" "Fever"] is normalised to. *)
Definition fever_record : ICD11Term :=
  {| icd_id := JString "1"; icd_uri := JString "1"; icd_code := JString "";
     icd_title := JString "Fever"; icd_definition := JString "";
     icd_parent := JString ""; icd_children := JArray []; icd_synonyms := [] |}.

(** Endpoint 1 answers 500, endpoint 2 answers 200 with one entity. *)
Definition net_500_then_200 : Network :=
  network [("/mms/search", server_error);
           ("/search", ok (JObject [("destinationEntities", JArray [entity "1" "Fever"])]));
           ("/mms/flexisearch", ok (JObject [("destinationEntities", JArray [entity "2" "Cough"])]))].


(** Endpoint 1 answers 200 with a well-formed record followed by a string. *)
Definition net_partial_then_200 : Network :=
  network [("/mms/search", ok (JObject [("results", JArray [entity "0" "Malaria"; JString "x"])]));
           ("/search", ok (JObject [("destinationEntities", JArray [entity "1" "Fever"])]))].

(** A body with an empty list under the first key and a record under the
    second. *)
Definition empty_first_key : list (string * json) :=
  [("destinationEntities", JArray []); ("entities", JArray [entity "1" "Fever"])].

Definition net_empty_first_key : Network :=
  network [("/mms/search", ok (JObject empty_first_key))].


(** A resolver that returns, and one that raises. *)
Definition services (local : result (list NAMASTETerm)) (icd : result (list ICD11Term))
    : MappingService :=
  {| namaste_service := fun _ _ => local; icd11_service := fun _ => icd |}.

Definition runtime : Runtime := {| start_time := 1000; end_time := 1042; merge_fault := None |}.

End Fixture.

Module MoreFixtures.

(** A catalog with a string among its entries. *)
Definition fs_broken : FileSystem :=
  fun _ => Return (JObject [("results", JArray [Fixture.fever; JString "oops"; Fixture.cough])]).

(** A service whose client id is not configured. *)
Definition unconfigured : ICD11Service :=
  {| base_url := "https://id.who.int/icd";
     client_id := None;
     client_secret := Some "secret" |}.

(** A token endpoint that always answers 401. *)
Definition net_unauthorized : Network :=
  {| post_token := fun _ =>
       Return {| status_code := 401; text := "unauthorized";
                 json_body := Return (JObject [("error", JString "invalid_client")]) |};
     get := fun _ => Fixture.refused |}.

(** A record with three synonyms: a label object, a text and a number. *)
Definition with_synonyms : list (string * json) :=
  [("id", JString "s"); ("title", JString "Fever");
   ("synonym", JArray [JObject [("label", JObject [("@value", JString "Pyrexia")])];
                       JString "High temperature"; JInt 7])].




(** A catalog entry whose system is [null]. *)
Definition null_system : json := JObject [("id", JString "N3"); ("system", JNull)].

Definition fs_null_system : FileSystem :=
  fun _ => Return (JObject [("results", JArray [Fixture.fever; null_system])]).

End MoreFixtures.

(* ================================================================= *)
(** * Properties *)

(** ** Text *)

Lemma prefix_iff (q t : string) :
  String.prefix q t = true <-> exists post : string, t = (q ++ post)%string.
Proof.
  revert t; induction q as [|a q IH]; intros t.
  - split; [intros _; exists t; reflexivity | intros _; destruct t; reflexivity].
  - destruct t as [|b t]; simpl.
    + split; [discriminate | intros [post Hp]; discriminate].
    + destruct (ascii_dec a b) as [->|Hab].
      * rewrite IH. split; intros [post Hp]; exists post.
        -- now rewrite Hp.
        -- now injection Hp.
      * split; [discriminate | intros [post Hp]].
        injection Hp as Hb _. congruence.
Qed.

Lemma contains_iff (t q : string) : contains t q = true <-> occurs_in q t.
Proof.
  unfold occurs_in. induction t as [|a t IH].
  - cbn [contains]. rewrite orb_false_r, prefix_iff. split.
    + intros [post Hp]. exists "", post. exact Hp.
    + intros [pre [post Hp]]. destruct pre; [|discriminate]. now exists post.
  - cbn [contains]. rewrite orb_true_iff, prefix_iff, IH. split.
    + intros [[post Hp] | [pre [post Hp]]].
      * exists "", post. exact Hp.
      * exists (String a pre), post. simpl. now rewrite Hp.
    + intros [pre [post Hp]]. destruct pre as [|b pre].
      * left. now exists post.
      * right. injection Hp as _ Hp. now exists pre, post.
Qed.

Lemma contains_empty (t : string) : contains t "" = true.
Proof. apply contains_iff. exists "", t. reflexivity. Qed.

(** ** The local resolver *)

Section LocalProperties.
Context `{PyBuiltins}.

Lemma system_passes_text (ayush_system : option string) (system : string) :
  system_passes ayush_system (JString system)
  = Return (in_category ayush_system (JObject [("system", JString system)])).
Proof.
  destruct ayush_system as [f|]; [|reflexivity].
  unfold system_passes, in_category. simpl.
  destruct (String.eqb f ""); reflexivity.
Qed.

Lemma in_category_iff (ayush_system : option string) (item : json) :
  in_category ayush_system item = true <->
  (forall f, ayush_system = Some f -> f <> "" -> same_ignoring_case (entry_system item) f).
Proof.
  unfold in_category, same_ignoring_case. destruct ayush_system as [f|].
  - rewrite orb_true_iff, !String.eqb_eq. split.
    + intros [Hf | Hs] g [= <-] Hg; [contradiction | exact Hs].
    + intros Hall. destruct (string_dec f "") as [->|Hf]; [now left | right; now apply Hall].
  - split; [intros _ f; discriminate | reflexivity].
Qed.

(** On an entry of the documented shape one turn of the loop appends the
    entry's record when the entry is selected and does nothing otherwise. *)
Lemma scan_item_ok (query : string) (ayush_system : option string)
    (item : json) (results : list NAMASTETerm) :
  entry_ok item = true ->
  scan_item query ayush_system item results
  = Return (results ++ (if selected query ayush_system item then [record_of item] else [])).
Proof.
  destruct item as [| | | |?|fields]; try discriminate. intros Hok.
  unfold scan_item, selected, in_category, record_of, entry_ok, entry_name, entry_system,
    entry_fields in *.
  destruct (dict_get fields "term" (JString "")) as [| | |name| |] eqn:Hterm; try discriminate.
  destruct (dict_get fields "system" (JString "")) as [| | |sys| |] eqn:Hsys; try discriminate.
  unfold matches. destruct (contains (str_lower name) (str_lower query)); simpl.
  - rewrite system_passes_text. unfold in_category, entry_system; simpl.
    destruct ayush_system as [f|]; simpl.
    + destruct (String.eqb f "" || String.eqb (str_lower sys) (str_lower f)); simpl;
        [reflexivity | now rewrite app_nil_r].
    + reflexivity.
  - now rewrite app_nil_r.
Qed.

Lemma scan_ok (query : string) (ayush_system : option string) (items : list json) :
  forallb entry_ok items = true ->
  forall results,
    scan query ayush_system items results
    = Return (results ++ map record_of (filter (selected query ayush_system) items)).
Proof.
  induction items as [|item items IH]; intros Hok results; simpl.
  - now rewrite app_nil_r.
  - simpl in Hok. apply andb_true_iff in Hok as [Hitem Hrest].
    rewrite (scan_item_ok _ _ _ _ Hitem). simpl. rewrite (IH Hrest).
    destruct (selected query ayush_system item); simpl.
    + now rewrite <- app_assoc.
    + now rewrite app_nil_r.
Qed.

Lemma selected_empty_query (ayush_system : option string) (item : json) :
  selected "" ayush_system item = in_category ayush_system item.
Proof. unfold selected. now rewrite str_lower_empty, contains_empty. Qed.

(** Whatever [search_namaste] raises is the 500 of its last handler: the
    404 raised inside the [try] block does not leave the method. *)
Lemma search_namaste_raises_only_500 (fs : FileSystem) (self : NAMASTEService)
    (query : string) (ayush_system : option string) (e : exn) :
  search_namaste fs self query ayush_system = Raise e ->
  e = HTTPException 500 "NAMASTE search failed".
Proof.
  unfold search_namaste.
  destruct (search_namaste_try fs self query ayush_system) as [[]|]; congruence.
Qed.

End LocalProperties.

(** C7 (amended).  An entry whose display name and system are text is
    appended to the results exactly when the lower-cased query occurs in
    the lower-cased name and, for a non-empty filter, the system equals the
    filter up to case; an empty filter selects like no filter. *)
Theorem local_match_rule `{PyBuiltins} (query : string) (ayush_system : option string)
    (fields : list (string * json)) (name system : string) (results : list NAMASTETerm) :
  dict_get fields "term" (JString "") = JString name ->
  dict_get fields "system" (JString "") = JString system ->
  (match_rule query ayush_system name system ->
   scan_item query ayush_system (JObject fields) results
   = Return (results ++ [namaste_term_of fields name (JString system)])) /\
  (~ match_rule query ayush_system name system ->
   scan_item query ayush_system (JObject fields) results = Return results).
Proof.
  intros Hterm Hsys.
  assert (Hok : entry_ok (JObject fields) = true) by (simpl; now rewrite Hterm, Hsys).
  rewrite (scan_item_ok query ayush_system _ results Hok).
  assert (Hrule : selected query ayush_system (JObject fields) = true
                  <-> match_rule query ayush_system name system).
  { unfold selected, match_rule. rewrite andb_true_iff, contains_iff, in_category_iff.
    simpl. now rewrite Hterm, Hsys. }
  assert (Hrec : record_of (JObject fields) = namaste_term_of fields name (JString system)).
  { unfold record_of. simpl. now rewrite Hterm, Hsys. }
  rewrite Hrec.
  destruct (selected query ayush_system (JObject fields)); split; intros Hm.
  - reflexivity.
  - exfalso. apply Hm, Hrule. reflexivity.
  - apply Hrule in Hm. discriminate.
  - now rewrite app_nil_r.
Qed.

Lemma local_match_rule_witness :
  match_rule "fev" (Some "ayurveda") "Fever" "Ayurveda" /\
  scan_item "fev" (Some "ayurveda") Fixture.fever []
  = Return [record_of Fixture.fever].
Proof.
  assert (Hm : match_rule "fev" (Some "ayurveda") "Fever" "Ayurveda").
  { split; [exists "", "er"; reflexivity | intros f Hf _; injection Hf as <-; reflexivity]. }
  split; [exact Hm|].
  exact (proj1 (local_match_rule "fev" (Some "ayurveda") Fixture.fever_fields
                  "Fever" "Ayurveda" [] eq_refl eq_refl) Hm).
Defined.

(** C7 as stated fails when the filter is the empty text: the entry is
    appended although its system differs from the filter. *)
Lemma empty_filter_selects_every_system :
  scan_item "fev" (Some "") Fixture.fever [] = Return [record_of Fixture.fever] /\
  ~ claimed_match_rule "fev" (Some "") "Fever" "Ayurveda".
Proof.
  split; [reflexivity|].
  intros [_ Hsame]. specialize (Hsame "" eq_refl).
  unfold same_ignoring_case in Hsame. simpl in Hsame. discriminate.
Qed.

Example fev_matches_Fever :
  search_namaste Fixture.fs_catalog Fixture.service "fev" None
  = Return [record_of Fixture.fever].
Proof. reflexivity. Qed.

Example Ayurveda_matches_ayurveda :
  search_namaste Fixture.fs_catalog Fixture.service "e" (Some "ayurveda")
  = Return [record_of Fixture.fever].
Proof. reflexivity. Qed.

Example Ayurveda_does_not_match_Yoga :
  scan_item "e" (Some "Yoga") Fixture.fever [] = Return [].
Proof. reflexivity. Qed.

(** C9 (amended).  When the catalog file does not exist, the local
    resolver returns exactly one record, the fixed fallback, whose [term]
    is the query. *)
Theorem missing_catalog_fallback `{PyBuiltins} (fs : FileSystem) (self : NAMASTEService)
    (query : string) (ayush_system : option string) (msg : string) :
  fs (data_file self) = Raise (FileNotFoundError msg) ->
  search_namaste fs self query ayush_system = Return [fallback_term query] /\
  nam_term (fallback_term query) = query.
Proof.
  intros Hfs. split; [|reflexivity].
  unfold search_namaste, search_namaste_try. now rewrite Hfs.
Qed.

Lemma missing_catalog_fallback_witness :
  search_namaste Fixture.fs_missing Fixture.service "fever" (Some "Yoga")
  = Return [fallback_term "fever"] /\
  nam_term (fallback_term "fever") = "fever".
Proof.
  exact (missing_catalog_fallback Fixture.fs_missing Fixture.service "fever" (Some "Yoga")
           "No such file or directory" eq_refl).
Defined.

(** C9 as stated fails for a file that exists and cannot be read: the
    resolver raises its fatal error instead of returning the fallback. *)
Lemma unreadable_catalog_has_no_fallback :
  ~ claimed_fallback Fixture.fs_denied Fixture.service "fever" None.
Proof.
  intros Hclaim. destruct Hclaim as [r [Hr _]].
  - exists "Permission denied". right. reflexivity.
  - discriminate Hr.
Qed.

(** The record the code builds for an entry is the entry's record,
    field by field. *)
Lemma record_of_entry_record `{PyBuiltins} (item : json) :
  record_of item = entry_record item.
Proof. reflexivity. Qed.

(** C10 (amended).  The local resolver has no guard on the empty query.
    For a catalog that loads and whose entries are objects with a text
    name and a text system, the empty query selects every entry by its
    name, so the result is the records of the entries that pass the
    category filter, field by field and in catalog order, provided one
    entry passes. *)
Theorem empty_query_returns_category `{PyBuiltins} (fs : FileSystem) (self : NAMASTEService)
    (ayush_system : option string) (fields : list (string * json)) (items : list json) :
  fs (data_file self) = Return (JObject fields) ->
  dict_get fields "results" (JArray []) = JArray items ->
  forallb entry_ok items = true ->
  filter (in_category ayush_system) items <> [] ->
  search_namaste fs self "" ayush_system
  = Return (map entry_record (filter (in_category ayush_system) items)).
Proof.
  intros Hfs Hres Hok Hsome.
  unfold search_namaste, search_namaste_try. rewrite Hfs. simpl. rewrite Hres. simpl.
  rewrite (scan_ok "" ayush_system items Hok []). simpl.
  rewrite (filter_ext _ _ (selected_empty_query ayush_system)).
  rewrite (map_ext _ _ record_of_entry_record).
  destruct (filter (in_category ayush_system) items); [contradiction | reflexivity].
Qed.

Lemma empty_query_returns_category_witness :
  search_namaste Fixture.fs_catalog Fixture.service "" (Some "YOGA")
  = Return [ {| nam_id := JString "N2"; nam_term := "Dry cough";
                nam_term_hindi := JNull; nam_category := JString "Disease";
                nam_subcategory := JNull; nam_ayush_system := JString "Yoga";
                nam_description := JNull; nam_synonyms := JArray [] |} ].
Proof.
  change (search_namaste Fixture.fs_catalog Fixture.service "" (Some "YOGA")
          = Return (map entry_record (filter (in_category (Some "YOGA"))
                                             [Fixture.fever; Fixture.cough]))).
  apply (empty_query_returns_category Fixture.fs_catalog Fixture.service (Some "YOGA")
           [("results", JArray [Fixture.fever; Fixture.cough])]
           [Fixture.fever; Fixture.cough]);
    [reflexivity | reflexivity | reflexivity | simpl; discriminate].
Defined.

(** C10 without the condition on the entries fails: in a catalog that
    loads, an entry whose system is [null] makes the empty query with a
    filter raise the 500, although another entry passes the filter. *)
Lemma null_system_fails_the_empty_query :
  filter (in_category (Some "ayurveda")) [Fixture.fever; MoreFixtures.null_system]
  = [Fixture.fever] /\
  search_namaste MoreFixtures.fs_null_system Fixture.service "" (Some "ayurveda")
  = Raise (HTTPException 500 "NAMASTE search failed") /\
  ~ claimed_empty_query MoreFixtures.fs_null_system Fixture.service (Some "ayurveda")
      [Fixture.fever; MoreFixtures.null_system].
Proof.
  split; [reflexivity|]. split; [reflexivity|].
  intros Hclaim. specialize (Hclaim eq_refl). discriminate Hclaim.
  simpl. discriminate.
Qed.

(** C2 at a catalog that loads and has no entry for the query.  The [try]
    block raises the 404; the method raises the 500 of its last handler,
    the same as for a file that does not parse. *)
Theorem no_match_leaves_as_fatal_error :
  search_namaste_try Fixture.fs_catalog Fixture.service "zzz" None
  = Raise (HTTPException 404 "No NAMASTE results for 'zzz'") /\
  search_namaste Fixture.fs_catalog Fixture.service "zzz" None
  = Raise (HTTPException 500 "NAMASTE search failed") /\
  search_namaste Fixture.fs_corrupt Fixture.service "zzz" None
  = search_namaste Fixture.fs_catalog Fixture.service "zzz" None.
Proof. repeat split. Qed.

(** ** The remote resolver: response normalisation *)

Lemma entities_of_object (fields : list (string * json)) :
  entities_of (JObject fields)
  = Return (py_or (dict_get fields "destinationEntities" (JArray []))
              (py_or (dict_get fields "entities" (JArray []))
                 (py_or (dict_get fields "searchResults" (JArray []))
                    (dict_get fields "results" (JArray []))))).
Proof.
  unfold entities_of, py_or. simpl.
  destruct (truthy (dict_get fields "destinationEntities" (JArray []))); [reflexivity|].
  destruct (truthy (dict_get fields "entities" (JArray []))); [reflexivity|].
  destruct (truthy (dict_get fields "searchResults" (JArray []))); reflexivity.
Qed.

Lemma dict_get_present (fields : list (string * json)) (k : string) (v default : json) :
  lookup fields k = Some v -> dict_get fields k default = v.
Proof. unfold dict_get. now intros ->. Qed.

(** C1 (amended).  The entity list of a decoded object is the value of the
    first key, in the order destinationEntities, entities, searchResults,
    results, whose value is present and non-empty: keys before it that are
    absent or hold an empty value are passed over.  When no key holds a
    non-empty value, the list is what sits under results, or empty. *)
Theorem entity_list_first_nonempty (fields : list (string * json)) :
  (forall pre k post v,
      entity_keys = pre ++ k :: post ->
      lookup fields k = Some v ->
      truthy v = true ->
      (forall k', In k' pre -> truthy (dict_get fields k' (JArray [])) = false) ->
      entities_of (JObject fields) = Return v) /\
  ((forall k', In k' entity_keys -> truthy (dict_get fields k' (JArray [])) = false) ->
   entities_of (JObject fields) = Return (dict_get fields "results" (JArray []))).
Proof.
  rewrite entities_of_object. unfold entity_keys, py_or. split.
  - intros pre k post v Hkeys Hk Hv Hpre.
    destruct pre as [|k1 [|k2 [|k3 [|k4 pre]]]]; simpl in Hkeys.
    + injection Hkeys as <- _. rewrite (dict_get_present _ _ _ _ Hk), Hv. reflexivity.
    + injection Hkeys as <- <- _.
      rewrite (Hpre _ (or_introl eq_refl)).
      rewrite (dict_get_present _ _ _ _ Hk), Hv. reflexivity.
    + injection Hkeys as <- <- <- _.
      rewrite (Hpre _ (or_introl eq_refl)), (Hpre _ (or_intror (or_introl eq_refl))).
      rewrite (dict_get_present _ _ _ _ Hk), Hv. reflexivity.
    + injection Hkeys as <- <- <- <- _.
      rewrite (Hpre _ (or_introl eq_refl)), (Hpre _ (or_intror (or_introl eq_refl))),
        (Hpre _ (or_intror (or_intror (or_introl eq_refl)))).
      rewrite (dict_get_present _ _ _ _ Hk). reflexivity.
    + injection Hkeys as _ _ _ _ Hnil. destruct pre; discriminate.
  - intros Hall.
    rewrite (Hall "destinationEntities"), (Hall "entities"), (Hall "searchResults");
      simpl; auto.
Qed.

Lemma entity_list_first_nonempty_witness :
  lookup Fixture.empty_first_key "destinationEntities" = Some (JArray []) /\
  entities_of (JObject Fixture.empty_first_key)
  = Return (JArray [Fixture.entity "1" "Fever"]).
Proof.
  split; [reflexivity|].
  apply (proj1 (entity_list_first_nonempty Fixture.empty_first_key)
           ["destinationEntities"] "entities" ["searchResults"; "results"]).
  - reflexivity.
  - reflexivity.
  - reflexivity.
  - intros k' [<-|[]]. reflexivity.
Defined.

(** C1 as stated fails on a body with an empty list under the first key
    and a record under the second: the first present key holds the empty
    list, and the code takes the list of the second key. *)
Lemma empty_higher_priority_key_does_not_win :
  first_present Fixture.empty_first_key entity_keys = JArray [] /\
  entities_of (JObject Fixture.empty_first_key)
  <> Return (first_present Fixture.empty_first_key entity_keys).
Proof. split; [reflexivity | discriminate]. Qed.

Example empty_first_key_search :
  map icd_title
    (fst (search_icd11 Fixture.net_empty_first_key Fixture.remote "fever" true initial_state))
  = [JString "Fever"].
Proof. reflexivity. Qed.


Section RemoteProperties.
Context `{PyBuiltins}.







End RemoteProperties.

(** ** The remote resolver: probing *)

Section ProbeProperties.
Context `{PyBuiltins}.



Lemma token_exchange_truthy (posted : result Response) (token : json) :
  token_exchange posted = Return token -> truthy token = true.
Proof.
  unfold token_exchange. destruct posted as [e|response]; [discriminate|]. simpl.
  destruct (negb (Z.eqb (status_code response) 200)); [discriminate|].
  destruct (json_body response) as [e|token_data]; [discriminate|]. simpl.
  destruct (py_get token_data "access_token" JNull) as [e|tok]; [discriminate|]. simpl.
  destruct (truthy tok) eqn:Htok; [|discriminate].
  simpl. now intros [= <-].
Qed.

(** A token handed out is the one now in the cache, and it counts as set. *)
Lemma get_token_caches (net : Network) (self : ICD11Service) (st st1 : State) (token : json) :
  get_token net self st = (Return token, st1) ->
  _token_cache st1 = token /\ truthy token = true.
Proof.
  unfold get_token. destruct (truthy (_token_cache st)) eqn:Hcache.
  - intros [= <- <-]. now split.
  - destruct (setting_missing (client_id self) || setting_missing (client_secret self));
      [discriminate|].
    destruct (token_exchange (post_token net (posts st))) as [e|tok] eqn:Hex.
    + destruct e; discriminate.
    + intros [= <- <-]. split; [reflexivity|]. exact (token_exchange_truthy _ _ Hex).
Qed.

(** With the cache set, [get_token] hands out its content and touches
    neither the state nor the network. *)
Lemma get_token_cached (net : Network) (self : ICD11Service) (st : State) :
  truthy (_token_cache st) = true ->
  get_token net self st = (Return (_token_cache st), st).
Proof. unfold get_token. now intros ->. Qed.

(** With the cache set, a search leaves the cache and the number of token
    exchanges as they are. *)
Lemma search_icd11_keeps_cache (net : Network) (self : ICD11Service) (query : string)
    (use_flexisearch : bool) (st : State) :
  truthy (_token_cache st) = true ->
  _token_cache (snd (search_icd11 net self query use_flexisearch st)) = _token_cache st /\
  posts (snd (search_icd11 net self query use_flexisearch st)) = posts st.
Proof.
  intros Hcache. unfold search_icd11. destruct (blank query); [now split|].
  rewrite (get_token_cached net self st Hcache).
  destruct (probe net (search_request query use_flexisearch (_token_cache st))
              (endpoints_to_try self) [] (gets st)) as [results requested].
  now split.
Qed.

Lemma run_keeps_cache (net : Network) (self : ICD11Service) (ops : list operation) :
  forall st,
    truthy (_token_cache st) = true ->
    Forall (fun r => r = Return (_token_cache st)) (fst (run net self ops st)) /\
    _token_cache (snd (run net self ops st)) = _token_cache st /\
    posts (snd (run net self ops st)) = posts st.
Proof.
  induction ops as [|op ops IH]; intros st Hcache; simpl.
  - repeat split. constructor.
  - destruct op as [|query use_flexisearch].
    + rewrite (get_token_cached net self st Hcache).
      destruct (IH st Hcache) as [Htokens [Hc Hp]].
      destruct (run net self ops st) as [rs st2]. simpl in *.
      repeat split; [constructor|..]; auto.
    + destruct (search_icd11_keeps_cache net self query use_flexisearch st Hcache)
        as [Hc1 Hp1].
      destruct (search_icd11 net self query use_flexisearch st) as [results st1].
      simpl in Hc1, Hp1.
      assert (Hcache1 : truthy (_token_cache st1) = true) by now rewrite Hc1.
      destruct (IH st1 Hcache1) as [Htokens [Hc Hp]].
      rewrite Hc1 in Htokens, Hc. rewrite Hp1 in Hp. repeat split; assumption.
Qed.

End ProbeProperties.

Section UsableProperties.
Context `{PyBuiltins}.





End UsableProperties.




(** An endpoint abandoned in the middle of its entity list leaves the
    records read so far in [results]; the next endpoint adds its own. *)
Example abandoned_endpoint_leaves_its_records :
  map icd_title
    (fst (search_icd11 Fixture.net_partial_then_200 Fixture.remote "fever" true initial_state))
  = [JString "Malaria"; JString "Fever"].
Proof. reflexivity. Qed.




(** C6.  Once [get_token] has handed out a token, every later call hands
    out that same token without a token exchange, whatever the token
    endpoint would answer then, and no operation of the service clears or
    replaces the cache. *)
Theorem token_is_memoized `{PyBuiltins} (net : Network) (self : ICD11Service)
    (st st1 : State) (token : json) :
  get_token net self st = (Return token, st1) ->
  forall (net' : Network),
    get_token net' self st1 = (Return token, st1) /\
    forall ops : list operation,
      Forall (fun r => r = Return token) (fst (run net' self ops st1)) /\
      _token_cache (snd (run net' self ops st1)) = token /\
      posts (snd (run net' self ops st1)) = posts st1.
Proof.
  intros Hfirst net'.
  destruct (get_token_caches net self st st1 token Hfirst) as [Hcache Htruthy].
  assert (Hset : truthy (_token_cache st1) = true) by now rewrite Hcache.
  split.
  - rewrite (get_token_cached net' self st1 Hset). now rewrite Hcache.
  - intros ops. pose proof (run_keeps_cache net' self ops st1 Hset) as Hrun.
    now rewrite Hcache in Hrun.
Qed.

Lemma token_is_memoized_witness :
  let st1 := {| _token_cache := JString "token-0"; posts := 1; gets := [] |} in
  get_token (Fixture.network []) Fixture.remote initial_state
  = (Return (JString "token-0"), st1) /\
  post_token (Fixture.network []) 1
  = Fixture.ok (JObject [("access_token", JString "token-1")]) /\
  get_token (Fixture.network []) Fixture.remote st1 = (Return (JString "token-0"), st1) /\
  Forall (fun r => r = Return (JString "token-0"))
         (fst (run (Fixture.network []) Fixture.remote
                   [GetToken; SearchIcd11 "fever" true; GetToken] st1)).
Proof.
  intros st1.
  destruct (token_is_memoized (Fixture.network []) Fixture.remote initial_state st1
              (JString "token-0") eq_refl (Fixture.network [])) as [Hagain Hrun].
  split; [reflexivity|]. split; [reflexivity|]. split; [exact Hagain|].
  exact (proj1 (Hrun [GetToken; SearchIcd11 "fever" true; GetToken])).
Defined.

(** ** The aggregator *)

Lemma search_terms_try_fault (ms : MappingService) (rt : Runtime) (q : string)
    (source : SearchType) (ayush_system : option string) :
  orchestration_failed ms rt q source ayush_system <-> merge_fault rt <> None.
Proof.
  unfold orchestration_failed, search_terms_try.
  destruct (merge_fault rt) as [e|]; simpl.
  - split; [discriminate | intros _; now exists e].
  - split; [intros [e He]; discriminate | intros Hn; now contradiction Hn].
Qed.

(** C4.  The envelope counts the two lists it carries.  Its status is
    no_results exactly when that count is zero and the orchestration did
    not fail, and error exactly when the orchestration failed; what the two
    resolvers return or raise never makes it error. *)
Theorem envelope_count_and_status (ms : MappingService) (rt : Runtime) (q : string)
    (source : SearchType) (ayush_system : option string) :
  let r := search_terms ms rt q source ayush_system in
  total_results r = (List.length (namaste_results r) + List.length (icd11_results r))%nat /\
  (status r = "no_results" <->
   total_results r = 0%nat /\ ~ orchestration_failed ms rt q source ayush_system) /\
  (status r = "error" <-> orchestration_failed ms rt q source ayush_system) /\
  (merge_fault rt = None -> status r <> "error").
Proof.
  intros r. subst r. rewrite search_terms_try_fault.
  unfold search_terms, search_terms_try.
  destruct (merge_fault rt) as [e|]; cbn [bind]; cbv zeta; cbn [total_results status
    namaste_results icd11_results].
  - split; [reflexivity|]. split; [|split].
    + split; [discriminate | intros [_ Hn]; now contradiction Hn].
    + split; [discriminate | reflexivity].
    + discriminate.
  - set (n := (List.length _ + List.length _)%nat).
    split; [reflexivity|].
    destruct (Nat.eqb n 0) eqn:Hn.
    + apply Nat.eqb_eq in Hn. split; [|split].
      * split; [intros _; split; [exact Hn | intros Hf; now contradiction Hf] | reflexivity].
      * split; [discriminate | intros Hf; now contradiction Hf].
      * discriminate.
    + apply Nat.eqb_neq in Hn. split; [|split].
      * split; [discriminate | intros [Hz _]; contradiction].
      * split; [discriminate | intros Hf; now contradiction Hf].
      * discriminate.
Qed.

(** C5.  With both sources requested, a resolver that raises leaves its
    own list empty and the list of the other resolver as returned. *)
Theorem per_source_failures_are_isolated (ms : MappingService) (rt : Runtime) (q : string)
    (ayush_system : option string) :
  merge_fault rt = None ->
  (forall e local,
      icd11_service ms q = Raise e ->
      namaste_service ms q ayush_system = Return local ->
      namaste_results (search_terms ms rt q BOTH ayush_system) = local /\
      icd11_results (search_terms ms rt q BOTH ayush_system) = []) /\
  (forall e remote,
      namaste_service ms q ayush_system = Raise e ->
      icd11_service ms q = Return remote ->
      icd11_results (search_terms ms rt q BOTH ayush_system) = remote /\
      namaste_results (search_terms ms rt q BOTH ayush_system) = []).
Proof.
  intros Hfault. unfold search_terms, search_terms_try, guarded_namaste, guarded_icd11.
  rewrite Hfault. cbn [bind]. split.
  - intros e local Hicd Hnam. rewrite Hicd, Hnam. now split.
  - intros e remote Hnam Hicd. rewrite Hicd, Hnam.
    destruct e as [code detail| | | | | | |]; [destruct (Z.eqb code 404)|..]; now split.
Qed.

Lemma per_source_failures_are_isolated_witness :
  let ms := Fixture.services (Return [fallback_term "fever"])
                             (Raise (RuntimeError "boom")) in
  namaste_results (search_terms ms Fixture.runtime "fever" BOTH None)
  = [fallback_term "fever"] /\
  icd11_results (search_terms ms Fixture.runtime "fever" BOTH None) = [].
Proof.
  intros ms.
  exact (proj1 (per_source_failures_are_isolated ms Fixture.runtime "fever" None eq_refl)
           (RuntimeError "boom") [fallback_term "fever"] eq_refl eq_refl).
Defined.

Example local_failure_keeps_remote_results :
  let ms := Fixture.services (Raise (HTTPException 500 "NAMASTE search failed"))
                             (Return [Fixture.fever_record]) in
  let r := search_terms ms Fixture.runtime "fever" BOTH None in
  namaste_results r = [] /\ icd11_results r = [Fixture.fever_record] /\
  total_results r = 1%nat /\ status r = "success".
Proof. repeat split. Qed.

(** The request of C2 through the aggregator, with the resolvers of the
    process: the 500 ends in the second arm of the handler, the list is
    empty and the status is no_results. *)
Example no_match_through_the_aggregator :
  let ms := mapping_service Fixture.fs_catalog Fixture.service
                            (Fixture.network []) Fixture.remote initial_state in
  let r := search_terms ms Fixture.runtime "zzz" NAMASTE None in
  namaste_results r = [] /\ status r = "no_results".
Proof. repeat split. Qed.

Lemma envelope_count_and_status_witness :
  let ms := Fixture.services (Raise (HTTPException 500 "NAMASTE search failed"))
                             (Raise (RuntimeError "boom")) in
  let r := search_terms ms Fixture.runtime "fever" BOTH None in
  total_results r = 0%nat /\ status r = "no_results" /\ status r <> "error".
Proof.
  intros ms r.
  destruct (envelope_count_and_status ms Fixture.runtime "fever" BOTH None)
    as [Hcount [_ [_ Hnever]]].
  split; [exact Hcount|]. split; [reflexivity|]. exact (Hnever eq_refl).
Defined.

(* ================================================================= *)
(** * Further properties of the local resolver *)

Section LocalFurther.
Context `{PyBuiltins}.

(** What one turn of the loop can do when it does not raise: leave
    [results] alone, or append the record of an object whose name is text
    and for which the condition of lines 27-28 holds. *)
Lemma scan_item_returns (query : string) (ayush_system : option string)
    (item : json) (results rs : list NAMASTETerm) :
  scan_item query ayush_system item results = Return rs ->
  rs = results \/
  exists fields name,
    item = JObject fields /\
    dict_get fields "term" (JString "") = JString name /\
    matches query ayush_system name (dict_get fields "system" (JString "")) = Return true /\
    rs = results ++ [namaste_term_of fields name (dict_get fields "system" (JString ""))].
Proof.
  destruct item as [| | | | |fields]; try discriminate. unfold scan_item.
  destruct (dict_get fields "term" (JString "")) as [| | |name| |] eqn:Hterm; try discriminate.
  destruct (matches query ayush_system name (dict_get fields "system" (JString "")))
    as [e|[|]] eqn:Hm; simpl; try discriminate.
  - intros [= <-]. right. exists fields, name. repeat split; assumption.
  - intros [= <-]. now left.
Qed.

Lemma scan_item_raises (query : string) (ayush_system : option string)
    (item : json) (results : list NAMASTETerm) (e : exn) :
  scan_item query ayush_system item results = Raise e ->
  exists msg, e = AttributeError msg.
Proof.
  destruct item as [| | | | |fields]; simpl; try (intros [= <-]; eauto).
  destruct (dict_get fields "term" (JString "")) as [| | |name| |];
    try (intros [= <-]; eauto).
  unfold matches, system_passes.
  destruct (contains (str_lower name) (str_lower query)); simpl.
  - destruct ayush_system as [f|]; simpl.
    + destruct (String.eqb f ""); simpl.
      * discriminate.
      * destruct (dict_get fields "system" (JString "")); simpl;
          try (intros [= <-]; eauto).
        destruct (String.eqb (str_lower s) (str_lower f)); discriminate.
    + discriminate.
  - discriminate.
Qed.

Lemma scan_raises (query : string) (ayush_system : option string) (items : list json) :
  forall results e,
    scan query ayush_system items results = Raise e -> exists msg, e = AttributeError msg.
Proof.
  induction items as [|item items IH]; intros results e; simpl; [discriminate|].
  destruct (scan_item query ayush_system item results) as [e'|rs] eqn:Hitem; simpl.
  - intros [= <-]. exact (scan_item_raises _ _ _ _ _ Hitem).
  - apply IH.
Qed.

(** A property of records that holds of [results] before the loop and of
    every record the loop may append holds of [results] after the loop. *)
Lemma scan_invariant (P : NAMASTETerm -> Prop) (query : string)
    (ayush_system : option string) (items : list json) :
  (forall fields name,
      matches query ayush_system name (dict_get fields "system" (JString "")) = Return true ->
      P (namaste_term_of fields name (dict_get fields "system" (JString "")))) ->
  forall results rs,
    Forall P results ->
    scan query ayush_system items results = Return rs ->
    Forall P rs.
Proof.
  intros Hstep. induction items as [|item items IH]; intros results rs Hres; simpl.
  - now intros [= <-].
  - destruct (scan_item query ayush_system item results) as [e|rs1] eqn:Hitem; simpl;
      [discriminate|].
    apply IH. destruct (scan_item_returns _ _ _ _ _ Hitem)
      as [-> | [fields [name [_ [_ [Hm ->]]]]]]; [exact Hres|].
    apply Forall_app. split; [exact Hres|]. constructor; [|constructor].
    now apply Hstep.
Qed.

Lemma scan_app (query : string) (ayush_system : option string) (pre rest : list json) :
  forall results,
    scan query ayush_system (pre ++ rest) results
    = (rs <- scan query ayush_system pre results ;; scan query ayush_system rest rs).
Proof.
  induction pre as [|item pre IH]; intros results; simpl; [reflexivity|].
  destruct (scan_item query ayush_system item results); simpl; [reflexivity | apply IH].
Qed.

(** What the [try] block does once the file has been read. *)
Lemma search_namaste_try_loaded (fs : FileSystem) (self : NAMASTEService) (query : string)
    (ayush_system : option string) (data : json) :
  fs (data_file self) = Return data ->
  search_namaste_try fs self query ayush_system
  = (results <- (entries <- py_get data "results" (JArray []) ;;
                 items <- py_iter entries ;;
                 scan query ayush_system items []) ;;
     match results with
     | [] => Raise (HTTPException 404 ("No NAMASTE results for '" ++ query ++ "'")%string)
     | _ :: _ => Return results
     end).
Proof.
  intros Hfs. unfold search_namaste_try. rewrite Hfs. simpl.
  destruct (py_get data "results" (JArray [])); simpl; [reflexivity|].
  destruct (py_iter a); reflexivity.
Qed.

(** Once the file has been read, nothing in the [try] block raises
    [FileNotFoundError]. *)
Lemma loaded_scan_not_missing (query : string) (ayush_system : option string)
    (data : json) (e : exn) :
  (entries <- py_get data "results" (JArray []) ;;
   items <- py_iter entries ;;
   scan query ayush_system items []) = Raise e ->
  forall msg, e <> FileNotFoundError msg.
Proof.
  destruct data as [| | | | |fields]; simpl; try (intros [= <-]; discriminate).
  destruct (dict_get fields "results" (JArray [])) as [| | | s | l | kv]; simpl;
    try (intros [= <-]; discriminate);
    intros Hscan msg; destruct (scan_raises _ _ _ _ _ Hscan) as [m ->]; discriminate.
Qed.

(** When the file has been read, a list returned by the method is the
    list the [try] block returned. *)
Lemma search_namaste_loaded_return (fs : FileSystem) (self : NAMASTEService)
    (query : string) (ayush_system : option string) (data : json) (rs : list NAMASTETerm) :
  fs (data_file self) = Return data ->
  search_namaste fs self query ayush_system = Return rs ->
  search_namaste_try fs self query ayush_system = Return rs.
Proof.
  intros Hfs. unfold search_namaste. rewrite (search_namaste_try_loaded _ _ _ _ _ Hfs).
  destruct (entries <- py_get data "results" (JArray []) ;;
            items <- py_iter entries ;;
            scan query ayush_system items []) as [e|[|r results]] eqn:Hscan; simpl.
  - pose proof (loaded_scan_not_missing _ _ _ _ Hscan) as Hnot.
    destruct e; try discriminate. now contradiction (Hnot msg).
  - discriminate.
  - now intros [= <-].
Qed.

Lemma search_namaste_try_nonempty (fs : FileSystem) (self : NAMASTEService)
    (query : string) (ayush_system : option string) (rs : list NAMASTETerm) :
  search_namaste_try fs self query ayush_system = Return rs -> rs <> [].
Proof.
  unfold search_namaste_try.
  destruct (fs (data_file self)) as [e|data]; simpl; [discriminate|].
  destruct (py_get data "results" (JArray [])) as [e|entries]; simpl; [discriminate|].
  destruct (py_iter entries) as [e|items]; simpl; [discriminate|].
  destruct (scan query ayush_system items []) as [e|[|r results]]; simpl; try discriminate.
  now intros [= <-].
Qed.

Lemma matches_true_contains (query : string) (ayush_system : option string)
    (name : string) (system : json) :
  matches query ayush_system name system = Return true ->
  contains (str_lower name) (str_lower query) = true.
Proof.
  unfold matches. destruct (contains (str_lower name) (str_lower query));
    [reflexivity | discriminate].
Qed.

Lemma matches_true_system (query f name : string) (system : json) :
  f <> "" ->
  matches query (Some f) name system = Return true ->
  exists s, system = JString s /\ same_ignoring_case s f.
Proof.
  intros Hf. unfold matches, system_passes.
  destruct (contains (str_lower name) (str_lower query)); [|discriminate].
  apply String.eqb_neq in Hf. rewrite Hf.
  destruct system as [| | |s| |]; simpl; try discriminate.
  intros [= Heq]. exists s. split; [reflexivity|]. now apply String.eqb_eq.
Qed.

(** The loop reads the query only through [query.lower()]. *)
Lemma scan_query_case (q1 q2 : string) (ayush_system : option string) (items : list json) :
  str_lower q1 = str_lower q2 ->
  forall results, scan q1 ayush_system items results = scan q2 ayush_system items results.
Proof.
  intros Hq. induction items as [|item items IH]; intros results; simpl; [reflexivity|].
  assert (Hitem : scan_item q1 ayush_system item results
                  = scan_item q2 ayush_system item results).
  { unfold scan_item, matches. now rewrite Hq. }
  rewrite Hitem. destruct (scan_item q2 ayush_system item results); simpl;
    [reflexivity | apply IH].
Qed.

(** The loop reads a non-empty filter only through [ayush_system.lower()]. *)
Lemma scan_filter_case (query f1 f2 : string) (items : list json) :
  f1 <> "" -> f2 <> "" -> str_lower f1 = str_lower f2 ->
  forall results, scan query (Some f1) items results = scan query (Some f2) items results.
Proof.
  intros H1 H2 Hf. apply String.eqb_neq in H1, H2.
  induction items as [|item items IH]; intros results; simpl; [reflexivity|].
  assert (Hitem : scan_item query (Some f1) item results
                  = scan_item query (Some f2) item results).
  { unfold scan_item, matches, system_passes. now rewrite H1, H2, Hf. }
  rewrite Hitem. destruct (scan_item query (Some f2) item results); simpl;
    [reflexivity | apply IH].
Qed.

(** The method forgets which list-less outcome the [try] block had once the
    file has been read: two runs whose loops agree have the same outcome. *)
Lemma search_namaste_loaded_ext (fs : FileSystem) (self : NAMASTEService) (data : json)
    (q1 q2 : string) (a1 a2 : option string) :
  fs (data_file self) = Return data ->
  (forall items results, scan q1 a1 items results = scan q2 a2 items results) ->
  search_namaste fs self q1 a1 = search_namaste fs self q2 a2.
Proof.
  intros Hfs Hscan. unfold search_namaste.
  rewrite !(search_namaste_try_loaded _ _ _ _ _ Hfs).
  assert (Hloop : forall items,
             match (results <- scan q1 a1 items [] ;;
                    match results with
                    | [] => Raise (HTTPException 404 ("No NAMASTE results for '" ++ q1 ++ "'")%string)
                    | _ :: _ => Return results
                    end) with
             | Return results => Return results
             | Raise (FileNotFoundError _) => Return [fallback_term q1]
             | Raise _ => Raise (HTTPException 500 "NAMASTE search failed")
             end
             = match (results <- scan q2 a2 items [] ;;
                      match results with
                      | [] => Raise (HTTPException 404 ("No NAMASTE results for '" ++ q2 ++ "'")%string)
                      | _ :: _ => Return results
                      end) with
               | Return results => Return results
               | Raise (FileNotFoundError _) => Return [fallback_term q2]
               | Raise _ => Raise (HTTPException 500 "NAMASTE search failed")
               end).
  { intros items. rewrite Hscan.
    destruct (scan q2 a2 items []) as [e|[|r rs]] eqn:Hs; simpl; try reflexivity.
    destruct (scan_raises _ _ _ _ _ Hs) as [m ->]. reflexivity. }
  destruct data as [| | | | |fields]; simpl; try reflexivity.
  destruct (dict_get fields "results" (JArray [])) as [| | | s | l | kv]; simpl;
    try reflexivity; apply Hloop.
Qed.

End LocalFurther.

Lemma append_empty_r (s : string) : (s ++ "")%string = s.
Proof. induction s as [|c s IH]; simpl; [reflexivity | now rewrite IH]. Qed.

(** X1.  A list returned by [search_namaste] is never empty: it holds the
    matches, of which there is at least one, or the one fallback record. *)
Theorem search_namaste_never_returns_empty `{PyBuiltins} (fs : FileSystem)
    (self : NAMASTEService) (query : string) (ayush_system : option string)
    (rs : list NAMASTETerm) :
  search_namaste fs self query ayush_system = Return rs -> rs <> [].
Proof.
  unfold search_namaste.
  destruct (search_namaste_try fs self query ayush_system) as [e|results] eqn:Htry.
  - destruct e; try discriminate. intros [= <-]. discriminate.
  - intros [= <-]. exact (search_namaste_try_nonempty _ _ _ _ _ Htry).
Qed.

Lemma search_namaste_never_returns_empty_witness :
  [record_of Fixture.fever] <> [].
Proof.
  exact (search_namaste_never_returns_empty Fixture.fs_catalog Fixture.service "fev" None
           [record_of Fixture.fever] eq_refl).
Defined.

(** X2.  Every record [search_namaste] returns, the fallback included,
    has a [term] in which the query occurs up to case. *)
Theorem returned_terms_contain_query `{PyBuiltins} (fs : FileSystem)
    (self : NAMASTEService) (query : string) (ayush_system : option string)
    (rs : list NAMASTETerm) :
  search_namaste fs self query ayush_system = Return rs ->
  Forall (fun r => occurs_in (str_lower query) (str_lower (nam_term r))) rs.
Proof.
  unfold search_namaste.
  destruct (search_namaste_try fs self query ayush_system) as [e|results] eqn:Htry.
  - destruct e; try discriminate. intros [= <-].
    constructor; [|constructor]. exists "", "". simpl. now rewrite append_empty_r.
  - intros [= <-]. revert Htry. unfold search_namaste_try.
    destruct (fs (data_file self)) as [e|data]; simpl; [discriminate|].
    destruct (py_get data "results" (JArray [])) as [e|entries]; simpl; [discriminate|].
    destruct (py_iter entries) as [e|items]; simpl; [discriminate|].
    destruct (scan query ayush_system items []) as [e|rs] eqn:Hscan; simpl; [discriminate|].
    destruct rs as [|r rs]; [discriminate|]. intros [= <-].
    apply (scan_invariant _ query ayush_system items) with (results := []);
      [|constructor|exact Hscan].
    intros fields name Hm. simpl. apply contains_iff.
    exact (matches_true_contains _ _ _ _ Hm).
Qed.

Lemma returned_terms_contain_query_witness :
  Forall (fun r => occurs_in (str_lower "FEV") (str_lower (nam_term r)))
         [record_of Fixture.fever].
Proof.
  exact (returned_terms_contain_query Fixture.fs_catalog Fixture.service "FEV"
           (Some "AYURVEDA") [record_of Fixture.fever] eq_refl).
Defined.

(** X3.  When the catalog file has been read and a non-empty filter is
    set, every record returned carries a text system that equals the filter
    up to case. *)
Theorem loaded_results_respect_filter `{PyBuiltins} (fs : FileSystem)
    (self : NAMASTEService) (query f : string) (data : json) (rs : list NAMASTETerm) :
  fs (data_file self) = Return data ->
  f <> "" ->
  search_namaste fs self query (Some f) = Return rs ->
  Forall (fun r => exists s, nam_ayush_system r = JString s /\ same_ignoring_case s f) rs.
Proof.
  intros Hfs Hf Hret.
  pose proof (search_namaste_loaded_return _ _ _ _ _ _ Hfs Hret) as Htry.
  rewrite (search_namaste_try_loaded _ _ _ _ _ Hfs) in Htry.
  destruct (py_get data "results" (JArray [])) as [e|entries]; simpl in Htry; [discriminate|].
  destruct (py_iter entries) as [e|items]; simpl in Htry; [discriminate|].
  destruct (scan query (Some f) items []) as [e|results] eqn:Hscan; simpl in Htry;
    [discriminate|].
  destruct results as [|r results]; [discriminate|]. injection Htry as <-.
  apply (scan_invariant _ query (Some f) items) with (results := []);
    [|constructor|exact Hscan].
  intros fields name Hm. simpl. exact (matches_true_system _ _ _ _ Hf Hm).
Qed.

Lemma loaded_results_respect_filter_witness :
  Forall (fun r => exists s, nam_ayush_system r = JString s /\ same_ignoring_case s "YOGA")
         [record_of Fixture.cough].
Proof.
  apply (loaded_results_respect_filter Fixture.fs_catalog Fixture.service "" "YOGA"
           Fixture.catalog [record_of Fixture.cough]).
  - reflexivity.
  - discriminate.
  - reflexivity.
Defined.

(** X4.  For a catalog whose entries are objects with text name and
    system, the result is the records of the selected entries, field by
    field, in catalog order, one per entry, whenever at least one entry is
    selected. *)
Theorem search_namaste_keeps_catalog_order `{PyBuiltins} (fs : FileSystem)
    (self : NAMASTEService) (query : string) (ayush_system : option string)
    (fields : list (string * json)) (items : list json) :
  fs (data_file self) = Return (JObject fields) ->
  dict_get fields "results" (JArray []) = JArray items ->
  forallb entry_ok items = true ->
  filter (selected query ayush_system) items <> [] ->
  search_namaste fs self query ayush_system
  = Return (map entry_record (filter (selected query ayush_system) items)).
Proof.
  intros Hfs Hres Hok Hsome.
  unfold search_namaste, search_namaste_try. rewrite Hfs. simpl. rewrite Hres. simpl.
  rewrite (scan_ok query ayush_system items Hok []). simpl.
  rewrite (map_ext _ _ record_of_entry_record).
  destruct (filter (selected query ayush_system) items); [contradiction | reflexivity].
Qed.

Lemma search_namaste_keeps_catalog_order_witness :
  search_namaste Fixture.fs_catalog Fixture.service "R" None
  = Return [ {| nam_id := JString "N1"; nam_term := "Fever";
                nam_term_hindi := JNull; nam_category := JString "Disease";
                nam_subcategory := JNull; nam_ayush_system := JString "Ayurveda";
                nam_description := JNull; nam_synonyms := JArray [] |};
             {| nam_id := JString "N2"; nam_term := "Dry cough";
                nam_term_hindi := JNull; nam_category := JString "Disease";
                nam_subcategory := JNull; nam_ayush_system := JString "Yoga";
                nam_description := JNull; nam_synonyms := JArray [] |} ].
Proof.
  change (search_namaste Fixture.fs_catalog Fixture.service "R" None
          = Return (map entry_record (filter (selected "R" None)
                                             [Fixture.fever; Fixture.cough]))).
  apply (search_namaste_keeps_catalog_order Fixture.fs_catalog Fixture.service "R" None
           [("results", JArray [Fixture.fever; Fixture.cough])]
           [Fixture.fever; Fixture.cough]);
    [reflexivity | reflexivity | reflexivity | simpl; discriminate].
Defined.

(** X5.  An entry that is not an object makes the whole search fail with
    the 500, wherever it stands in the catalog and whatever the entries
    before it matched. *)
Theorem malformed_entry_fails_search `{PyBuiltins} (fs : FileSystem)
    (self : NAMASTEService) (query : string) (ayush_system : option string)
    (fields : list (string * json)) (pre post : list json) (bad : json) :
  fs (data_file self) = Return (JObject fields) ->
  dict_get fields "results" (JArray []) = JArray (pre ++ bad :: post) ->
  forallb entry_ok pre = true ->
  (forall o, bad <> JObject o) ->
  search_namaste fs self query ayush_system
  = Raise (HTTPException 500 "NAMASTE search failed").
Proof.
  intros Hfs Hres Hok Hbad.
  unfold search_namaste, search_namaste_try. rewrite Hfs. simpl. rewrite Hres. simpl.
  rewrite scan_app, (scan_ok query ayush_system pre Hok []). simpl.
  destruct bad as [| | | | |o]; try reflexivity. now contradiction (Hbad o).
Qed.

Lemma malformed_entry_fails_search_witness :
  search_namaste MoreFixtures.fs_broken Fixture.service "fev" None
  = Raise (HTTPException 500 "NAMASTE search failed").
Proof.
  apply (malformed_entry_fails_search MoreFixtures.fs_broken Fixture.service "fev" None
           [("results", JArray [Fixture.fever; JString "oops"; Fixture.cough])]
           [Fixture.fever] [Fixture.cough] (JString "oops"));
    [reflexivity | reflexivity | reflexivity | discriminate].
Defined.

(** X6.  Once the catalog file has been read, two queries that differ
    only in case have the same outcome. *)
Theorem query_case_does_not_matter `{PyBuiltins} (fs : FileSystem)
    (self : NAMASTEService) (q1 q2 : string) (ayush_system : option string) (data : json) :
  fs (data_file self) = Return data ->
  str_lower q1 = str_lower q2 ->
  search_namaste fs self q1 ayush_system = search_namaste fs self q2 ayush_system.
Proof.
  intros Hfs Hq. apply (search_namaste_loaded_ext fs self data); [exact Hfs|].
  intros items results. now apply scan_query_case.
Qed.

Lemma query_case_does_not_matter_witness :
  search_namaste Fixture.fs_catalog Fixture.service "FeV" (Some "Ayurveda")
  = search_namaste Fixture.fs_catalog Fixture.service "fEv" (Some "Ayurveda").
Proof.
  exact (query_case_does_not_matter Fixture.fs_catalog Fixture.service "FeV" "fEv"
           (Some "Ayurveda") Fixture.catalog eq_refl eq_refl).
Defined.

(** X7.  Once the catalog file has been read, two non-empty filters that
    differ only in case have the same outcome. *)
Theorem filter_case_does_not_matter `{PyBuiltins} (fs : FileSystem)
    (self : NAMASTEService) (query f1 f2 : string) (data : json) :
  fs (data_file self) = Return data ->
  f1 <> "" -> f2 <> "" ->
  str_lower f1 = str_lower f2 ->
  search_namaste fs self query (Some f1) = search_namaste fs self query (Some f2).
Proof.
  intros Hfs H1 H2 Hf. apply (search_namaste_loaded_ext fs self data); [exact Hfs|].
  intros items results. now apply scan_filter_case.
Qed.

Lemma filter_case_does_not_matter_witness :
  search_namaste Fixture.fs_catalog Fixture.service "e" (Some "YOGA")
  = search_namaste Fixture.fs_catalog Fixture.service "e" (Some "yoga").
Proof.
  apply (filter_case_does_not_matter Fixture.fs_catalog Fixture.service "e" "YOGA" "yoga"
           Fixture.catalog); [reflexivity | discriminate | discriminate | reflexivity].
Defined.

(* ================================================================= *)
(** * Further properties of the remote resolver *)

Section RemoteFurther.
Context `{PyBuiltins}.

(** What [get_token] does to the record of network calls. *)
Lemma get_token_calls (net : Network) (self : ICD11Service) (st : State) :
  gets (snd (get_token net self st)) = gets st /\
  (posts (snd (get_token net self st)) = posts st \/
   posts (snd (get_token net self st)) = S (posts st)).
Proof.
  unfold get_token. destruct (truthy (_token_cache st)); [now split; [|left]|].
  destruct (setting_missing (client_id self) || setting_missing (client_secret self));
    [now split; [|left]|].
  destruct (token_exchange (post_token net (posts st))) as [[]|token]; simpl;
    (split; [reflexivity | now right]).
Qed.

Lemma get_token_raises (net : Network) (self : ICD11Service) (st st1 : State) (e : exn) :
  get_token net self st = (Raise e, st1) ->
  _token_cache st1 = _token_cache st /\
  truthy (_token_cache st) = false /\
  forall msg, e <> RequestError msg.
Proof.
  unfold get_token. destruct (truthy (_token_cache st)) eqn:Hcache; [discriminate|].
  destruct (setting_missing (client_id self) || setting_missing (client_secret self)).
  - intros [= <- <-]. repeat split. discriminate.
  - destruct (token_exchange (post_token net (posts st))) as [[]|token];
      intros [= <- <-]; repeat split; discriminate.
Qed.

(** The loop requests an initial run of the URLs it is given, in order. *)
Lemma probe_requests_prefix (net : Network) (mk : string -> Request) (urls : list string) :
  forall results requested,
  exists n, snd (probe net mk urls results requested) = requested ++ firstn n urls.
Proof.
  induction urls as [|u urls IH]; intros results requested; simpl.
  - exists 0. now rewrite app_nil_r.
  - destruct (try_endpoint (get net (mk u)) results) as [results'|results']; simpl.
    + now exists 1.
    + destruct (IH results' (requested ++ [u])) as [n Hn].
      exists (S n). rewrite Hn, <- app_assoc. reflexivity.
Qed.

Lemma synonyms_loop_length (synonym_data : list json) :
  forall synonyms syns,
    synonyms_loop synonym_data synonyms = Return syns ->
    List.length syns = (List.length synonyms + List.length synonym_data)%nat.
Proof.
  induction synonym_data as [|syn rest IH]; intros synonyms syns; simpl.
  - intros [= <-]. lia.
  - destruct syn as [| | | | |d];
      try (intros Hrest; rewrite (IH _ _ Hrest), length_app; simpl; lia).
    destruct (py_get (dict_get d "label" (JObject [])) "@value" (JString ""))
      as [e|label]; simpl; [discriminate|].
    intros Hrest. rewrite (IH _ _ Hrest), length_app. simpl. lia.
Qed.

End RemoteFurther.

(** X8.  A call of [get_token] that raises leaves the cache as it was,
    that is unset, so the next call starts afresh; and what it raises is
    never the transport error itself, which is turned into the 500. *)
Theorem get_token_failure_leaves_cache_unset (net : Network) (self : ICD11Service)
    (st st1 : State) (e : exn) :
  get_token net self st = (Raise e, st1) ->
  _token_cache st1 = _token_cache st /\
  truthy (_token_cache st1) = false /\
  forall msg, e <> RequestError msg.
Proof.
  intros Hraise. destruct (get_token_raises net self st st1 e Hraise) as [Hc [Ht Hne]].
  repeat split; [exact Hc | now rewrite Hc | exact Hne].
Qed.

Lemma get_token_failure_leaves_cache_unset_witness :
  get_token MoreFixtures.net_unauthorized Fixture.remote initial_state
  = (Raise (HTTPException 500 "ICD-11 token request failed"),
     {| _token_cache := JNull; posts := 1; gets := [] |}) /\
  truthy JNull = false.
Proof.
  split; [reflexivity|].
  exact (proj1 (proj2 (get_token_failure_leaves_cache_unset
                         MoreFixtures.net_unauthorized Fixture.remote initial_state
                         {| _token_cache := JNull; posts := 1; gets := [] |}
                         (HTTPException 500 "ICD-11 token request failed") eq_refl))).
Defined.

(** X9.  One call of [get_token] performs at most one token exchange (no
    retry) and no search request. *)
Theorem get_token_one_exchange_at_most (net : Network) (self : ICD11Service) (st : State) :
  gets (snd (get_token net self st)) = gets st /\
  (posts st <= posts (snd (get_token net self st)) <= S (posts st))%nat.
Proof.
  destruct (get_token_calls net self st) as [Hg [Hp | Hp]]; rewrite Hp; split; auto; lia.
Qed.

(** X10.  With nothing cached and a client id or secret that is not
    configured, [get_token] raises the configuration 500 and every search
    returns the empty list, both without any call to the network. *)
Theorem unconfigured_service_makes_no_call `{PyBuiltins} (net : Network)
    (self : ICD11Service) (st : State) :
  truthy (_token_cache st) = false ->
  setting_missing (client_id self) || setting_missing (client_secret self) = true ->
  get_token net self st
  = (Raise (HTTPException 500 "ICD-11 credentials not configured"), st) /\
  forall query use_flexisearch,
    search_icd11 net self query use_flexisearch st = ([], st).
Proof.
  intros Hcache Hmissing.
  assert (Htoken : get_token net self st
                   = (Raise (HTTPException 500 "ICD-11 credentials not configured"), st)).
  { unfold get_token. now rewrite Hcache, Hmissing. }
  split; [exact Htoken|].
  intros query use_flexisearch. unfold search_icd11.
  destruct (blank query); [reflexivity|]. now rewrite Htoken.
Qed.

Lemma unconfigured_service_makes_no_call_witness :
  search_icd11 Fixture.net_500_then_200 MoreFixtures.unconfigured "fever" true initial_state
  = ([], initial_state).
Proof.
  exact (proj2 (unconfigured_service_makes_no_call Fixture.net_500_then_200
                  MoreFixtures.unconfigured initial_state eq_refl eq_refl) "fever" true).
Defined.

(** X11.  A search requests an initial run of the four endpoint URLs, in
    the order of the list, each at most once, and nothing else; it performs
    at most one token exchange. *)
Theorem search_requests_endpoints_in_order `{PyBuiltins} (net : Network)
    (self : ICD11Service) (query : string) (use_flexisearch : bool) (st : State) :
  (exists n,
      gets (snd (search_icd11 net self query use_flexisearch st))
      = gets st ++ firstn n (endpoints_to_try self)) /\
  (posts st <= posts (snd (search_icd11 net self query use_flexisearch st))
   <= S (posts st))%nat.
Proof.
  unfold search_icd11. destruct (blank query).
  { split; [exists 0; simpl; now rewrite app_nil_r | simpl; lia]. }
  pose proof (get_token_one_exchange_at_most net self st) as [Hg Hp].
  destruct (get_token net self st) as [[e|token] st1]; simpl in Hg, Hp.
  - split; [exists 0; simpl; now rewrite app_nil_r, Hg | simpl; lia].
  - destruct (probe_requests_prefix net (search_request query use_flexisearch token)
                (endpoints_to_try self) [] (gets st1)) as [n Hn].
    destruct (probe net (search_request query use_flexisearch token)
                (endpoints_to_try self) [] (gets st1)) as [results requested].
    simpl in Hn. simpl. split; [exists n; now rewrite Hn, Hg | lia].
Qed.



(** X13.  A search that obtained a token leaves it in the cache: searches
    made afterwards, on any network, perform no token exchange. *)
Theorem search_leaves_token_cached `{PyBuiltins} (net : Network) (self : ICD11Service)
    (query : string) (use_flexisearch : bool) (st st1 : State) (token : json) :
  blank query = false ->
  get_token net self st = (Return token, st1) ->
  _token_cache (snd (search_icd11 net self query use_flexisearch st)) = token /\
  forall net' query' use_flexisearch',
    posts (snd (search_icd11 net' self query' use_flexisearch'
                  (snd (search_icd11 net self query use_flexisearch st))))
    = posts (snd (search_icd11 net self query use_flexisearch st)).
Proof.
  intros Hblank Htoken.
  destruct (get_token_caches net self st st1 token Htoken) as [Hcache Htruthy].
  assert (Hst2 : _token_cache (snd (search_icd11 net self query use_flexisearch st)) = token).
  { unfold search_icd11. rewrite Hblank, Htoken.
    destruct (probe net (search_request query use_flexisearch token)
                (endpoints_to_try self) [] (gets st1)) as [results requested].
    exact Hcache. }
  split; [exact Hst2|].
  intros net' query' use_flexisearch'.
  apply search_icd11_keeps_cache. now rewrite Hst2.
Qed.

Lemma search_leaves_token_cached_witness :
  _token_cache (snd (search_icd11 Fixture.net_500_then_200 Fixture.remote "fever" true
                       initial_state))
  = JString "token-0".
Proof.
  exact (proj1 (search_leaves_token_cached Fixture.net_500_then_200 Fixture.remote "fever"
                  true initial_state
                  {| _token_cache := JString "token-0"; posts := 1; gets := [] |}
                  (JString "token-0") eq_refl eq_refl)).
Defined.

(** The loop over a synonym list appends the reading of each entry, in
    order. *)
Lemma synonyms_loop_reading `{PyBuiltins} (synonym_data : list json) :
  forall synonyms syns,
    synonyms_loop synonym_data synonyms = Return syns ->
    exists read,
      syns = synonyms ++ read /\
      Forall2 (fun syn s => synonym_reading syn = Some s) synonym_data read.
Proof.
  induction synonym_data as [|syn rest IH]; intros synonyms syns; simpl.
  - intros [= <-]. exists []. split; [now rewrite app_nil_r | constructor].
  - assert (Hstep : forall s,
               synonym_reading syn = Some s ->
               synonyms_loop rest (synonyms ++ [s]) = Return syns ->
               exists read,
                 syns = synonyms ++ read /\
                 Forall2 (fun syn s => synonym_reading syn = Some s) (syn :: rest) read).
    { intros s Hs Hrest. destruct (IH _ _ Hrest) as [read [-> Hread]].
      exists (s :: read). split; [now rewrite <- app_assoc | now constructor]. }
    destruct syn as [| | | | |d]; try (apply Hstep; reflexivity).
    unfold dict_get.
    destruct (lookup d "label") as [[| | | | |label]|] eqn:Hlabel; simpl;
      try discriminate.
    + apply Hstep. simpl. now rewrite Hlabel.
    + apply Hstep. simpl. now rewrite Hlabel.
Qed.

(** X14.  When the synonyms of a record are read, there is exactly one
    synonym per entry of the list found under [synonym] or [synonyms], in
    order: the [@value] of the label for an object, the [str] of the entry
    for anything else. *)
Theorem synonyms_are_never_dropped `{PyBuiltins} (fields : list (string * json))
    (synonym_data syns : list json) :
  py_or (dict_get fields "synonym" (JArray [])) (dict_get fields "synonyms" (JArray []))
  = JArray synonym_data ->
  synonyms_of fields = Return syns ->
  Forall2 (fun syn s => synonym_reading syn = Some s) synonym_data syns /\
  List.length syns = List.length synonym_data.
Proof.
  intros Hdata. unfold synonyms_of. rewrite Hdata. intros Hloop.
  destruct (synonyms_loop_reading _ _ _ Hloop) as [read [-> Hread]]. simpl.
  split; [exact Hread|]. symmetry. exact (Forall2_length Hread).
Qed.

Lemma synonyms_are_never_dropped_witness :
  synonyms_of MoreFixtures.with_synonyms
  = Return [JString "Pyrexia"; JString "High temperature"; JString "7"] /\
  Forall2 (fun syn s => synonym_reading syn = Some s)
          [JObject [("label", JObject [("@value", JString "Pyrexia")])];
           JString "High temperature"; JInt 7]
          [JString "Pyrexia"; JString "High temperature"; JString "7"].
Proof.
  split; [reflexivity|].
  exact (proj1 (synonyms_are_never_dropped (H := ascii_builtins) MoreFixtures.with_synonyms
                  [JObject [("label", JObject [("@value", JString "Pyrexia")])];
                   JString "High temperature"; JInt 7]
                  [JString "Pyrexia"; JString "High temperature"; JString "7"]
                  eq_refl eq_refl)).
Defined.

(** X15.  A record that is kept and has a non-empty identifier has a
    non-empty uri. *)
Theorem identified_record_has_uri `{PyBuiltins} (item : json) (t : ICD11Term) :
  normalise_item item = Return (Some t) ->
  truthy (icd_id t) = true ->
  truthy (icd_uri t) = true.
Proof.
  destruct item as [| | | | |fields]; try discriminate. simpl.
  destruct (synonyms_of fields) as [e|syns]; [discriminate|]. simpl.
  destruct (truthy (title_of fields)); [|discriminate].
  intros [= <-]. simpl. unfold py_or.
  destruct (truthy (dict_get fields "uri" (JString ""))) eqn:Huri; [now rewrite Huri|].
  destruct (truthy (dict_get fields "id" (JString ""))) eqn:Hid; rewrite ?Hid; trivial.
Qed.

Lemma identified_record_has_uri_witness :
  truthy (icd_uri Fixture.fever_record) = true.
Proof.
  exact (identified_record_has_uri (Fixture.entity "1" "Fever") Fixture.fever_record
           eq_refl eq_refl).
Defined.

(* ================================================================= *)
(** * Further properties of the aggregator *)

(** X16.  A request for one source consults only the resolver of that
    source: with scope namaste the envelope does not depend on the remote
    resolver and its remote list is empty; with scope icd11 it depends
    neither on the local resolver nor on the category filter and its local
    list is empty. *)
Theorem scope_selects_resolvers (ms1 ms2 : MappingService) (rt : Runtime) (q : string)
    (ayush_system : option string) :
  (namaste_service ms1 q ayush_system = namaste_service ms2 q ayush_system ->
   search_terms ms1 rt q NAMASTE ayush_system = search_terms ms2 rt q NAMASTE ayush_system /\
   icd11_results (search_terms ms1 rt q NAMASTE ayush_system) = []) /\
  (icd11_service ms1 q = icd11_service ms2 q ->
   forall ayush_system',
     search_terms ms1 rt q ICD11 ayush_system = search_terms ms2 rt q ICD11 ayush_system' /\
     namaste_results (search_terms ms1 rt q ICD11 ayush_system) = []).
Proof.
  unfold search_terms, search_terms_try, guarded_namaste, guarded_icd11. split.
  - intros ->. destruct (merge_fault rt); simpl; split; reflexivity.
  - intros -> f'. destruct (merge_fault rt); simpl; split; reflexivity.
Qed.

Lemma scope_selects_resolvers_witness :
  search_terms (Fixture.services (Return [fallback_term "fever"]) (Raise (RuntimeError "boom")))
               Fixture.runtime "fever" NAMASTE None
  = search_terms (Fixture.services (Return [fallback_term "fever"])
                                   (Return [Fixture.fever_record]))
                 Fixture.runtime "fever" NAMASTE None.
Proof.
  exact (proj1 (proj1 (scope_selects_resolvers
                         (Fixture.services (Return [fallback_term "fever"])
                                           (Raise (RuntimeError "boom")))
                         (Fixture.services (Return [fallback_term "fever"])
                                           (Return [Fixture.fever_record]))
                         Fixture.runtime "fever" None) eq_refl)).
Defined.

(** X17.  In every envelope the status is success exactly when the count
    is not zero, and a message is attached exactly when the status is not
    success; the envelope echoes the query and the source. *)
Theorem success_iff_some_result (ms : MappingService) (rt : Runtime) (q : string)
    (scope : SearchType) (ayush_system : option string) :
  let r := search_terms ms rt q scope ayush_system in
  (status r = "success" <-> total_results r <> 0%nat) /\
  (message r = None <-> status r = "success") /\
  query r = q /\ source r = value scope.
Proof.
  intros r. subst r. unfold search_terms, search_terms_try.
  destruct (merge_fault rt) as [e|]; cbn [bind]; cbv zeta;
    cbn [total_results status message query source].
  - repeat split; try discriminate. intros Hn. now contradiction Hn.
  - set (n := (List.length _ + List.length _)%nat).
    destruct (Nat.eqb n 0) eqn:Hn.
    + apply Nat.eqb_eq in Hn. repeat split; try discriminate.
      intros Hz. contradiction.
    + apply Nat.eqb_neq in Hn. repeat split; auto.
Qed.

(** X18.  When the catalog file does not exist and the local source is
    requested, the envelope of the process carries the fallback record as
    its local list and reports success, whatever the remote source did. *)
Theorem missing_catalog_reports_success `{PyBuiltins} (fs : FileSystem)
    (local : NAMASTEService) (net : Network) (remote : ICD11Service) (st : State)
    (rt : Runtime) (q : string) (scope : SearchType) (ayush_system : option string)
    (msg : string) :
  fs (data_file local) = Raise (FileNotFoundError msg) ->
  scope <> ICD11 ->
  merge_fault rt = None ->
  let r := search_terms (mapping_service fs local net remote st) rt q scope ayush_system in
  namaste_results r = [fallback_term q] /\
  total_results r = S (List.length (icd11_results r)) /\
  status r = "success".
Proof.
  intros Hfs Hscope Hfault r. subst r.
  unfold search_terms, search_terms_try, guarded_namaste, mapping_service.
  cbn [namaste_service]. rewrite Hfault. cbn [bind].
  assert (Hlocal : search_namaste fs local q ayush_system = Return [fallback_term q]).
  { unfold search_namaste, search_namaste_try. now rewrite Hfs. }
  rewrite Hlocal. destruct scope; [| contradiction | ]; cbv zeta;
    cbn [namaste_results total_results status icd11_results]; repeat split.
Qed.

Lemma missing_catalog_reports_success_witness :
  status (search_terms (mapping_service Fixture.fs_missing Fixture.service
                          (Fixture.network []) Fixture.remote initial_state)
                       Fixture.runtime "fever" BOTH (Some "Yoga"))
  = "success".
Proof.
  refine (proj2 (proj2 (missing_catalog_reports_success Fixture.fs_missing Fixture.service
                          (Fixture.network []) Fixture.remote initial_state
                          Fixture.runtime "fever" BOTH (Some "Yoga")
                          "No such file or directory" eq_refl _ eq_refl))).
  discriminate.
Defined.

(** X19.  A request for the local source alone, served by the resolver of
    the process, reports no_results exactly when the resolver raised: the
    resolver never returns an empty list. *)
Theorem local_scope_no_results_iff_raised `{PyBuiltins} (fs : FileSystem)
    (local : NAMASTEService) (net : Network) (remote : ICD11Service) (st : State)
    (rt : Runtime) (q : string) (ayush_system : option string) :
  merge_fault rt = None ->
  let r := search_terms (mapping_service fs local net remote st) rt q NAMASTE ayush_system in
  status r = "no_results" <-> exists e, search_namaste fs local q ayush_system = Raise e.
Proof.
  intros Hfault r. subst r.
  unfold search_terms, search_terms_try, guarded_namaste, mapping_service.
  cbn [namaste_service]. rewrite Hfault. cbn [bind]. cbv zeta. cbn [status].
  destruct (search_namaste fs local q ayush_system) as [e|rs] eqn:Hlocal.
  - split; [intros _; now exists e|intros _].
    destruct e as [code detail| | | | | | |]; [destruct (Z.eqb code 404)|..]; reflexivity.
  - pose proof (search_namaste_try_nonempty fs local q ayush_system) as Hne.
    assert (Hrs : rs <> []).
    { unfold search_namaste in Hlocal.
      destruct (search_namaste_try fs local q ayush_system) as [e|results] eqn:Htry.
      - destruct e; try discriminate. injection Hlocal as <-. discriminate.
      - injection Hlocal as <-. now apply Hne. }
    destruct rs as [|r0 rs]; [contradiction|]. simpl.
    split; [discriminate | intros [e He]; discriminate].
Qed.

Lemma local_scope_no_results_iff_raised_witness :
  status (search_terms (mapping_service Fixture.fs_catalog Fixture.service
                          (Fixture.network []) Fixture.remote initial_state)
                       Fixture.runtime "zzz" NAMASTE None)
  = "no_results".
Proof.
  apply (proj2 (local_scope_no_results_iff_raised Fixture.fs_catalog Fixture.service
                  (Fixture.network []) Fixture.remote initial_state
                  Fixture.runtime "zzz" None eq_refl)).
  exists (HTTPException 500 "NAMASTE search failed"). reflexivity.
Defined.

(** X20.  A request for the remote source alone with a blank query,
    served by the resolver of the process, reports no_results with both
    lists empty. *)
Theorem blank_remote_query_gives_no_results `{PyBuiltins} (fs : FileSystem)
    (local : NAMASTEService) (net : Network) (remote : ICD11Service) (st : State)
    (rt : Runtime) (q : string) (ayush_system : option string) :
  blank q = true ->
  merge_fault rt = None ->
  let r := search_terms (mapping_service fs local net remote st) rt q ICD11 ayush_system in
  namaste_results r = [] /\ icd11_results r = [] /\ status r = "no_results".
Proof.
  intros Hblank Hfault r. subst r.
  unfold search_terms, search_terms_try, guarded_icd11, mapping_service, search_icd11.
  cbn [icd11_service]. rewrite Hfault, Hblank. repeat split.
Qed.

Lemma blank_remote_query_gives_no_results_witness :
  status (search_terms (mapping_service Fixture.fs_catalog Fixture.service
                          Fixture.net_500_then_200 Fixture.remote initial_state)
                       Fixture.runtime "   " ICD11 None)
  = "no_results".
Proof.
  exact (proj2 (proj2 (blank_remote_query_gives_no_results Fixture.fs_catalog
                         Fixture.service Fixture.net_500_then_200 Fixture.remote
                         initial_state Fixture.runtime "   " None eq_refl eq_refl))).
Defined.
